(** * oauth_dropins/reddit.py: the reddit OAuth drop-in

    A shallow embedding of [StartHandler.redirect_url] and
    [CallbackHandler.get], of the datastore entities they read and write
    ([models.OAuthRequestToken], [RedditAuth]) and of the collaborators they
    call (praw, the webutil helpers, the [finish] hook), followed by the
    properties of the authorization-state handshake.

    Python strings are modelled as [string] (byte strings), Python dicts as
    association lists in insertion order, the two ndb kinds as finite maps
    from the entity's key name to the entity, and a handler as a function in
    a state-and-exception monad over the datastore and the trace of calls made
    to collaborators. *)

From Stdlib Require Import ZArith Lia Ascii String List Bool.
From stdpp Require Import base option gmap strings list fin_maps.

Local Open Scope string_scope.
Local Open Scope Z_scope.

(** ** Python values *)

(** Exceptions a request can end with. *)
Inductive exn : Type :=
| AssertionError (msg : string)
| HTTPBadRequest (msg : string)
| NameError (name : string)
| TypeError (msg : string)
| AttributeError (attr : string)
| BadValueError (msg : string)
| UpstreamError (msg : string).

Inductive result (A : Type) : Type :=
| Returned (a : A)
| Raised (e : exn).
Arguments Returned {A} a.
Arguments Raised {A} e.

(** Attribute values of a praw [Redditor]: strings, counters, the creation
    timestamp (a float, kept as its printed form) and booleans. *)
Inductive pyval : Type :=
| PyNone
| PyStr (s : string)
| PyInt (n : Z)
| PyFloat (repr : string)
| PyBool (b : bool).

(** Truth value of a string ([''] is false) and of [None]-or-string. *)
Definition truthy (s : string) : bool :=
  match s with
  | EmptyString => false
  | String _ _ => true
  end.

Definition truthy_opt (o : option string) : bool :=
  match o with
  | None => false
  | Some s => truthy s
  end.

(** [a in b] on two strings: [a] occurs in [b] as a contiguous substring. *)
Fixpoint str_in (a b : string) : bool :=
  String.prefix a b ||
  match b with
  | EmptyString => false
  | String _ b' => str_in a b'
  end.

(** [str(n)] on an integer: its decimal digits, most significant first. *)
Definition digit_char (d : Z) : ascii := ascii_of_nat (48 + Z.to_nat d).

Fixpoint str_digits (fuel : nat) (n : Z) (acc : string) : string :=
  match fuel with
  | O => acc
  | S fuel' =>
      let acc' := String (digit_char (n mod 10)) acc in
      if n <? 10 then acc' else str_digits fuel' (n / 10) acc'
  end.

Definition str_int (n : Z) : string :=
  if n <? 0
  then String "-"%char (str_digits (S (Z.to_nat (Z.log2 (- n)))) (- n) EmptyString)
  else str_digits (S (Z.to_nat (Z.log2 n))) n EmptyString.

Definition is_digit (c : ascii) : bool :=
  let n := nat_of_ascii c in (48 <=? n)%nat && (n <=? 57)%nat.

Fixpoint all_digits (s : string) : bool :=
  match s with
  | EmptyString => true
  | String c s' => is_digit c && all_digits s'
  end.

(** The pattern [^[0-9]{6}$]. *)
Definition six_digits (s : string) : bool :=
  (String.length s =? 6)%nat && all_digits s.

(** Dicts keep insertion order; assigning to a key that is present replaces
    the value where it stands. *)
Fixpoint dict_get {A : Type} (d : list (string * A)) (k : string) : option A :=
  match d with
  | [] => None
  | (k', v) :: d' => if String.eqb k' k then Some v else dict_get d' k
  end.

Fixpoint dict_set {A : Type} (d : list (string * A)) (k : string) (v : A)
  : list (string * A) :=
  match d with
  | [] => [(k, v)]
  | (k', v') :: d' =>
      if String.eqb k' k then (k, v) :: d' else (k', v') :: dict_set d' k v
  end.

Definition dict_keys {A : Type} (d : list (string * A)) : list string :=
  map fst d.

(** ** Datastore entities *)

Module models.
(** [models.OAuthRequestToken]; the entity's key name is the map key. *)
Record OAuthRequestToken : Type := {
  token_secret : string;
  state : string
}.
End models.

(** [RedditAuth(models.BaseAuth)]: the key name is the reddit username;
    [refresh_token] is a required property, checked by [put]. *)
Record RedditAuth : Type := {
  key_id : string;
  refresh_token : option string;
  user_json : string
}.

(** ** Collaborators *)

(** What [praw.Reddit(...)] is constructed with. *)
Record Reddit : Type := {
  client_id : option string;
  client_secret : option string;
  redirect_uri : string;
  user_agent : string
}.

(** A praw [Redditor]: its loaded attributes. *)
Record Redditor : Type := { attrs : list (string * pyval) }.

(** The provider's answers during one request: [reddit.auth.authorize(code)]
    returns the refresh token (or [None]) or raises; [reddit.user.me()]
    returns the authorized user or raises. *)
Record Provider : Type := {
  authorize : Reddit -> string -> result (option string);
  me : Reddit -> result Redditor
}.

(** The [state] keyword argument [finish] is called with: the state token on
    the decline path (line 99), the whole decoded dict on the success path
    (line 135). *)
Inductive finish_state : Type :=
| FToken (state : option string)
| FDict (st : list (string * string)).

(** Calls made to collaborators, in program order; [EvAuthorize] and
    [EvUserMe] are the two round trips to the provider. The [logging.info]
    calls of the source leave no trace here. *)
Inductive event : Type :=
| EvReddit (reddit : Reddit)
| EvPutRequestToken (id : string)
| EvAuthUrl (scopes : list string) (st : string) (duration : string)
| EvGetRequestToken (id : option string)
| EvAuthorize (code : string)
| EvUserMe
| EvPutAuth (id : string)
| EvFinish (auth : option RedditAuth) (state : finish_state).

(** ** The world a request runs in *)

Record world : Type := {
  request_tokens : gmap string models.OAuthRequestToken;
  auths : gmap string RedditAuth;
  calls : list event
}.

Definition M (A : Type) : Type := world -> result A * world.

Definition ret {A : Type} (a : A) : M A := fun w => (Returned a, w).

Definition raise {A : Type} (e : exn) : M A := fun w => (Raised e, w).

Definition bind {A B : Type} (m : M A) (k : A -> M B) : M B :=
  fun w =>
    match m w with
    | (Returned a, w') => k a w'
    | (Raised e, w') => (Raised e, w')
    end.

Definition lift {A : Type} (r : result A) : M A := fun w => (r, w).

Definition emit (e : event) : M unit :=
  fun w =>
    (Returned tt,
     {| request_tokens := request_tokens w;
        auths := auths w;
        calls := calls w ++ [e] |}).

Notation "'let!' x ':=' m 'in' k" := (bind m (fun x => k))
  (at level 10, x name, m at level 100, k at level 200).
Notation "m ';;;' k" := (bind m (fun _ => k))
  (at level 100, k at level 200, right associativity).

(** [assert cond, msg] *)
Definition py_assert (cond : bool) (msg : string) : M unit :=
  if cond then ret tt else raise (AssertionError msg).

(** [models.OAuthRequestToken(id=..., ...).put()] *)
Definition put_request_token (id : string) (e : models.OAuthRequestToken) : M unit :=
  emit (EvPutRequestToken id) ;;;
  fun w =>
    (Returned tt,
     {| request_tokens := <[id := e]> (request_tokens w);
        auths := auths w;
        calls := calls w |}).

(** [models.OAuthRequestToken.get_by_id(id)] *)
Definition get_by_id (id : option string) : M (option models.OAuthRequestToken) :=
  emit (EvGetRequestToken id) ;;;
  match id with
  | None => raise (TypeError "get_by_id: id must not be None")
  | Some k => fun w => (Returned (request_tokens w !! k), w)
  end.

(** [auth.put()]: a required property that is unset makes [put] raise and
    nothing is written; otherwise the entity is stored under its key name,
    replacing the entity that was there. *)
Definition put_auth (auth : RedditAuth) : M unit :=
  emit (EvPutAuth (key_id auth)) ;;;
  match refresh_token auth with
  | None => raise (BadValueError "Entity has uninitialized properties: refresh_token")
  | Some _ =>
      fun w =>
        (Returned tt,
         {| request_tokens := request_tokens w;
            auths := <[key_id auth := auth]> (auths w);
            calls := calls w |})
  end.

(** [self.finish(auth, state=...)]: the hook of the generic callback
    handler, which owns the response. *)
Definition finish (auth : option RedditAuth) (state : finish_state) : M unit :=
  emit (EvFinish auth state).

(** [getattr(user, a)] *)
Definition getattr (user : Redditor) (a : string) : result pyval :=
  match dict_get (attrs user) a with
  | Some v => Returned v
  | None => Raised (AttributeError a)
  end.

(** [str(user)]: praw's [Redditor.__str__] returns [self.name]. *)
Definition str_user (user : Redditor) : result string :=
  match getattr user "name" with
  | Returned (PyStr n) => Returned n
  | Returned _ => Raised (TypeError "__str__ returned non-string")
  | Raised e => Raised e
  end.

(** [{a: getattr(user, a) for a in attribute_list}] *)
Fixpoint user_attributes (user : Redditor) (attribute_list : list string)
  (acc : list (string * pyval)) : result (list (string * pyval)) :=
  match attribute_list with
  | [] => Returned acc
  | a :: rest =>
      match getattr user a with
      | Returned v => user_attributes user rest (dict_set acc a v)
      | Raised e => Raised e
      end
  end.

Definition attribute_list : list string :=
  ["name"; "comment_karma"; "created_utc"; "id"; "name"; "link_karma"; "icon_img"].

(** ** The webutil helpers and praw's URL builder

    [oauth_dropins/webutil/util.py] and praw are not among the sources. The
    handlers below take the helpers as parameters; the definitions of this
    part give the parameters a concrete value where a run is evaluated. *)

Module util.

Definition dquote : ascii := ascii_of_nat 34.
Definition backslash : ascii := ascii_of_nat 92.

(** Modelled from the spec: [trim_nulls] of webutil, applied by the encoder
    to the mapping; entries whose value is empty are dropped, which is why
    the round-trip law speaks of non-empty strings. *)
Definition trim_nulls (obj : list (string * string)) : list (string * string) :=
  List.filter (fun kv => truthy (snd kv)) obj.

(** Modelled from the spec: the serialisation step of the "oauth state"
    encoding, a JSON object whose keys and values are string literals. *)
Fixpoint json_escape (s : string) : string :=
  match s with
  | EmptyString => EmptyString
  | String c s' =>
      if Ascii.eqb c dquote || Ascii.eqb c backslash
      then String backslash (String c (json_escape s'))
      else String c (json_escape s')
  end.

Definition json_string (s : string) : string :=
  String dquote (json_escape s +:+ String dquote EmptyString).

Definition json_member (kv : string * string) : string :=
  json_string (fst kv) +:+ String ":"%char (json_string (snd kv)).

Fixpoint json_members (d : list (string * string)) : string :=
  match d with
  | [] => EmptyString
  | [kv] => json_member kv
  | kv :: d' => json_member kv +:+ String ","%char (json_members d')
  end.

Definition json_dumps_obj (d : list (string * string)) : string :=
  String "{"%char (json_members d +:+ String "}"%char EmptyString).

(** Modelled from the spec: the parsing step of the decoder; anything that
    is not such an object is refused ([None]). *)
Fixpoint parse_string_body (s : string) : option (string * string) :=
  match s with
  | EmptyString => None
  | String c s' =>
      if Ascii.eqb c dquote then Some (EmptyString, s')
      else if Ascii.eqb c backslash then
        match s' with
        | String e s'' =>
            if Ascii.eqb e dquote || Ascii.eqb e backslash then
              match parse_string_body s'' with
              | Some (v, r) => Some (String e v, r)
              | None => None
              end
            else None
        | EmptyString => None
        end
      else
        match parse_string_body s' with
        | Some (v, r) => Some (String c v, r)
        | None => None
        end
  end.

Definition parse_string (s : string) : option (string * string) :=
  match s with
  | String c s' => if Ascii.eqb c dquote then parse_string_body s' else None
  | EmptyString => None
  end.

Definition parse_member (s : string) : option ((string * string) * string) :=
  match parse_string s with
  | Some (k, String c r) =>
      if Ascii.eqb c ":"%char then
        match parse_string r with
        | Some (v, r') => Some ((k, v), r')
        | None => None
        end
      else None
  | _ => None
  end.

Fixpoint parse_members (fuel : nat) (s : string) : option (list (string * string)) :=
  match fuel with
  | O => None
  | S fuel' =>
      match parse_member s with
      | Some (kv, String c r) =>
          if Ascii.eqb c "}"%char then
            match r with
            | EmptyString => Some [kv]
            | String _ _ => None
            end
          else if Ascii.eqb c ","%char then
            match parse_members fuel' r with
            | Some d => Some (kv :: d)
            | None => None
            end
          else None
      | _ => None
      end
  end.

Definition dict_of_pairs (l : list (string * string)) : list (string * string) :=
  fold_left (fun d kv => dict_set d (fst kv) (snd kv)) l [].

Definition json_loads_obj (s : string) : option (list (string * string)) :=
  match s with
  | String c r =>
      if Ascii.eqb c "{"%char then
        match r with
        | String c' EmptyString =>
            if Ascii.eqb c' "}"%char then Some [] else None
        | _ =>
            match parse_members (String.length r) r with
            | Some l => Some (dict_of_pairs l)
            | None => None
            end
        end
      else None
  | EmptyString => None
  end.

(** Modelled from the spec: the step that makes the blob safe as one query
    parameter; [quote_plus] keeps letters, digits and [_.-~], writes a
    space as [+] and every other byte as [%XX]. *)
Definition unreserved (c : ascii) : bool :=
  let n := nat_of_ascii c in
  ((65 <=? n) && (n <=? 90) || (97 <=? n) && (n <=? 122) ||
   (48 <=? n) && (n <=? 57) ||
   (n =? 95) || (n =? 46) || (n =? 45) || (n =? 126))%nat.

Definition hex_digit (n : nat) : ascii :=
  if (n <? 10)%nat then ascii_of_nat (48 + n) else ascii_of_nat (55 + n).

Definition hex_value (c : ascii) : option nat :=
  let n := nat_of_ascii c in
  if ((48 <=? n) && (n <=? 57))%nat then Some (n - 48)%nat
  else if ((65 <=? n) && (n <=? 70))%nat then Some (n - 55)%nat
  else if ((97 <=? n) && (n <=? 102))%nat then Some (n - 87)%nat
  else None.

Fixpoint quote_plus (s : string) : string :=
  match s with
  | EmptyString => EmptyString
  | String c s' =>
      if unreserved c then String c (quote_plus s')
      else if Ascii.eqb c " "%char then String "+"%char (quote_plus s')
      else
        let n := nat_of_ascii c in
        String "%"%char
          (String (hex_digit (n / 16)) (String (hex_digit (n mod 16)) (quote_plus s')))
  end.

Fixpoint unquote_plus (s : string) : string :=
  match s with
  | EmptyString => EmptyString
  | String c s' =>
      if Ascii.eqb c "+"%char then String " "%char (unquote_plus s')
      else if Ascii.eqb c "%"%char then
        match s' with
        | String a (String b s'') =>
            match hex_value a, hex_value b with
            | Some x, Some y => String (ascii_of_nat (16 * x + y)) (unquote_plus s'')
            | _, _ => String c (unquote_plus s')
            end
        | _ => String c (unquote_plus s')
        end
      else String c (unquote_plus s')
  end.

(** Modelled from the spec: [util.encode_oauth_state], the opaque and
    reversible encoding of the mapping that Start puts in the
    authorization URL. *)
Definition encode_oauth_state (obj : list (string * string)) : string :=
  quote_plus (json_dumps_obj (trim_nulls obj)).

(** Modelled from the spec: [util.decode_oauth_state], its inverse at
    Callback; an absent blob decodes to the empty mapping, a malformed one
    is a client error and never a default. *)
Definition decode_oauth_state (state : string) : result (list (string * string)) :=
  if truthy state then
    match json_loads_obj (unquote_plus state) with
    | Some d => Returned d
    | None => Raised (HTTPBadRequest ("Invalid value for state parameter: " +:+ state))
    end
  else Returned [].

(** Modelled from the spec: [json_dumps] on the profile snapshot, a JSON
    object of the whitelisted fields. *)
Definition json_value (v : pyval) : string :=
  match v with
  | PyNone => "null"
  | PyStr s => json_string s
  | PyInt n => str_int n
  | PyFloat repr => repr
  | PyBool true => "true"
  | PyBool false => "false"
  end.

Fixpoint json_fields (d : list (string * pyval)) : string :=
  match d with
  | [] => EmptyString
  | [(k, v)] => json_string k +:+ String ":"%char (json_value v)
  | (k, v) :: d' =>
      json_string k +:+ String ":"%char (json_value v) +:+ String ","%char (json_fields d')
  end.

Definition json_dumps (d : list (string * pyval)) : string :=
  String "{"%char (json_fields d +:+ String "}"%char EmptyString).

End util.

Module praw.

Definition join_scopes (scopes : list string) : string :=
  fold_right (fun s acc => match acc with
                           | EmptyString => s
                           | _ => s +:+ String " "%char acc
                           end) EmptyString scopes.

(** Modelled from the spec: the authorization URL praw's
    [reddit.auth.url(scopes, state, duration)] builds for a client, a
    browser redirect to the provider carrying the client id, the grant
    duration, the callback URI, the scope and the state blob. *)
Definition auth_url (reddit : Reddit) (scopes : list string) (st duration : string)
  : string :=
  "https://www.reddit.com/api/v1/authorize?client_id=" +:+
  default EmptyString (client_id reddit) +:+
  "&duration=" +:+ duration +:+
  "&redirect_uri=" +:+ util.quote_plus (redirect_uri reddit) +:+
  "&response_type=code&scope=" +:+ util.quote_plus (join_scopes scopes) +:+
  "&state=" +:+ st.

End praw.

(** ** The handlers *)

(** The incoming request: [self.request.host_url] and the query parameters;
    [self.request.get(name)] is [''] when the parameter is absent. *)
Record Request : Type := {
  host_url : string;
  params : gmap string string
}.

Definition request_get (r : Request) (name : string) : string :=
  default EmptyString (params r !! name).

Record StartHandler : Type := {
  start_request : Request;
  to_path : string
}.

Record CallbackHandler : Type := { request : Request }.

(** Lines 22-23: the module reads the two application credentials when it is
    loaded; [read] is [util.read], [None] for a file that does not exist.
    Nothing is checked here. *)
Definition module_load (read : string -> option string)
  : result (option string * option string) :=
  Returned (read "reddit_app_key", read "reddit_app_secret").

Section Handlers.

(** Module globals, set by [module_load]. *)
Variables REDDIT_APP_KEY REDDIT_APP_SECRET : option string.

(** [util.encode_oauth_state], [util.decode_oauth_state] and [json_dumps]
    of webutil, and the URL praw's [auth.url] builds. *)
Variable encode_oauth_state : list (string * string) -> string.
Variable decode_oauth_state : string -> result (list (string * string)).
Variable json_dumps : list (string * pyval) -> string.
Variable praw_auth_url : Reddit -> list string -> string -> string -> string.

Definition praw_Reddit (uri : string) : M Reddit :=
  let reddit :=
    {| client_id := REDDIT_APP_KEY;
       client_secret := REDDIT_APP_SECRET;
       redirect_uri := uri;
       user_agent := "oauth-dropin reddit identity checker" |} in
  emit (EvReddit reddit) ;;; ret reddit.

Definition auth_url (reddit : Reddit) (scopes : list string) (st duration : string)
  : M string :=
  emit (EvAuthUrl scopes st duration) ;;;
  ret (praw_auth_url reddit scopes st duration).

(** The state token [redirect_url] goes on with: the caller's, or
    [str(randint(100000,999999))], whose draw is [r]. *)
Definition start_token (state : option string) (r : Z) : string :=
  match state with
  | Some s => if truthy s then s else str_int r
  | None => str_int r
  end.

(** [StartHandler.redirect_url(self, state=None)], lines 60-76. *)
Definition redirect_url (self : StartHandler) (state : option string) (r : Z)
  : M string :=
  let state := start_token state r in
  py_assert (truthy_opt REDDIT_APP_KEY && truthy_opt REDDIT_APP_SECRET)
    "Please fill in the reddit_app_key and reddit_app_secret files in your app's root directory." ;;;
  let! reddit := praw_Reddit (host_url (start_request self) +:+ to_path self) in
  put_request_token state
    {| models.token_secret := state; models.state := state |} ;;;
  let st := encode_oauth_state [("state", state); ("to_path", to_path self)] in
  auth_url reddit ["identity"] st "permanent".

(** [CallbackHandler.get(self)], lines 90-135. *)
Definition get (self : CallbackHandler) (provider : Provider) : M unit :=
  let error := request_get (request self) "error" in
  let! st := lift (decode_oauth_state (request_get (request self) "state")) in
  let state := dict_get st "state" in
  let to_path := dict_get st "to_path" in
  let code := request_get (request self) "code" in
  if truthy error || negb (truthy_opt state) || negb (truthy code) then
    if str_in error "access_denied" then
      finish None (FToken state)
    else
      raise (HTTPBadRequest ("Error: " +:+ error))
  else
    let! request_token := get_by_id state in
    match request_token with
    | None =>
        (* line 109, [raise exc.HTTPBadRequest('Invalid oauth_token: %s' %
           request_token_key)]: the argument is evaluated first, and
           [request_token_key] is no local of [get], no name the module
           binds (lines 9-23 and the three classes) and no builtin *)
        raise (NameError "request_token_key")
    | Some _ =>
        let! uri :=
          match to_path with
          | Some p => ret (host_url (request self) +:+ p)
          | None => raise (TypeError "can only concatenate str (not 'NoneType') to str")
          end in
        let! reddit := praw_Reddit uri in
        emit (EvAuthorize code) ;;;
        let! refresh_token := lift (authorize provider reddit code) in
        emit EvUserMe ;;;
        let! user := lift (me provider reddit) in
        let! user_json := lift (user_attributes user attribute_list []) in
        let! user_id := lift (str_user user) in
        let auth :=
          {| key_id := user_id;
             refresh_token := refresh_token;
             user_json := json_dumps user_json |} in
        put_auth auth ;;;
        finish (Some auth) (FDict st)
    end.

End Handlers.

(** ** Reading a run *)

(** The calls a request added to the trace. *)
Definition new_calls (w w' : world) : list event :=
  drop (length (calls w)) (calls w').

(** The credential a run that started in [w] completed with: the request
    returned and its last call handed [finish] a credential. *)
Definition credential_of_run (w : world) (out : result unit * world)
  : option RedditAuth :=
  match fst out, last (new_calls w (snd out)) with
  | Returned _, Some (EvFinish (Some a) _) => Some a
  | _, _ => None
  end.

(** The configuration error as a startup-level abort: loading the module is
    what fails. *)
Definition aborts_at_startup (read : string -> option string) : Prop :=
  exists e, module_load read = Raised e.

(** The records stored under one identifier. *)
Definition records_of (id : string) (store : gmap string RedditAuth)
  : list (string * RedditAuth) :=
  List.filter (fun kv => String.eqb (fst kv) id) (map_to_list store).

(** ** Sample runs *)

Module sample.

Definition app_key : option string := Some "app-key".
Definition app_secret : option string := Some "app-secret".

Definition start : StartHandler :=
  {| start_request := {| host_url := "https://example.com"; params := ∅ |};
     to_path := "/reddit/oauth_callback" |}.

Definition empty_world : world :=
  {| request_tokens := ∅; auths := ∅; calls := [] |}.

(** The blob Start emits for the token [tok]. *)
Definition blob (tok : string) : string :=
  util.encode_oauth_state [("state", tok); ("to_path", to_path start)].

(** What the blob of the token [123456] decodes to. *)
Definition st0 : list (string * string) :=
  [("state", "123456"); ("to_path", "/reddit/oauth_callback")].

(** A callback request with the given query parameters. *)
Definition callback (ps : list (string * string)) : CallbackHandler :=
  {| request := {| host_url := "https://example.com"; params := list_to_map ps |} |}.

(** A world in which Start has issued the token [tok]. *)
Definition issued (tok : string) : world :=
  {| request_tokens :=
       {[ tok := {| models.token_secret := tok; models.state := tok |} ]};
     auths := ∅;
     calls := [] |}.

Definition redditor (name : string) (karma : Z) : Redditor :=
  {| attrs :=
       [("name", PyStr name); ("id", PyStr "t2_abc"); ("comment_karma", PyInt karma);
        ("link_karma", PyInt 7); ("created_utc", PyFloat "1500000000.0");
        ("icon_img", PyStr "https://example.com/a.png"); ("is_gold", PyBool false)] |}.

(** A world in which Start has issued two tokens. *)
Definition issued_both (tok1 tok2 : string) : world :=
  {| request_tokens :=
       <[ tok2 := {| models.token_secret := tok2; models.state := tok2 |} ]>
         (request_tokens (issued tok1));
     auths := ∅;
     calls := [] |}.

(** Credential files that exist and are empty, and an installation where
    only the key file was filled in. *)
Definition empty_files : string -> option string := fun _ => Some EmptyString.

Definition key_file_only : string -> option string :=
  fun f => if String.eqb f "reddit_app_key" then Some "app-key" else None.

(** A provider that grants [rt] and reports the user [name]. *)
Definition grants (rt name : string) (karma : Z) : Provider :=
  {| authorize := fun _ _ => Returned (Some rt);
     me := fun _ => Returned (redditor name karma) |}.

(** A provider whose token endpoint refuses the code. *)
Definition refuses : Provider :=
  {| authorize := fun _ _ => Raised (UpstreamError "invalid_grant");
     me := fun _ => Returned (redditor "alice" 1) |}.

(** The handlers with the helpers of this file plugged in. *)
Definition run_start (key secret : option string) :=
  redirect_url key secret util.encode_oauth_state praw.auth_url.

Definition run_callback :=
  get app_key app_secret util.decode_oauth_state util.json_dumps.

(** The credential [run_callback] stores for [grants rt name karma]. *)
Definition credential (rt name : string) (karma : Z) : RedditAuth :=
  {| key_id := name;
     refresh_token := Some rt;
     user_json :=
       util.json_dumps
         [("name", PyStr name); ("comment_karma", PyInt karma);
          ("created_utc", PyFloat "1500000000.0"); ("id", PyStr "t2_abc");
          ("link_karma", PyInt 7); ("icon_img", PyStr "https://example.com/a.png")] |}.

End sample.


(** ** The rest of the module *)

(** [RedditAuth.site_name], [user_display_name] and [access_token], lines
    40-51; [self.key_id()] is the key name of the entity. *)
Definition site_name (self : RedditAuth) : string := "reddit".

Definition user_display_name (self : RedditAuth) : string := key_id self.

Definition access_token (self : RedditAuth) : option string := refresh_token self.

(** The start handlers as classes: the generic [handlers.StartHandler],
    [StartHandler] of this module, and a class derived from one of them that
    defines no [button_html] of its own. *)
Inductive klass : Type :=
| HandlersStartHandler
| RedditStartHandler
| Subclass (parent : klass).

(** Method resolution order. *)
Fixpoint mro (k : klass) : list klass :=
  match k with
  | HandlersStartHandler => [HandlersStartHandler]
  | RedditStartHandler => [RedditStartHandler; HandlersStartHandler]
  | Subclass parent => Subclass parent :: mro parent
  end.

Definition defines_button_html (k : klass) : bool :=
  match k with
  | HandlersStartHandler | RedditStartHandler => true
  | Subclass _ => false
  end.

(** The class at the root of a chain of derived classes. *)
Fixpoint root (k : klass) : klass :=
  match k with
  | Subclass parent => root parent
  | _ => k
  end.

Definition input_style : string := "background-color: #CEE3F8; padding: 10px".

Section ButtonHtml.

(** [button_html] of [handlers.StartHandler], which renders the button. *)
Variable base_button_html :
  klass -> list string -> list (string * string) -> result string.

(** The [button_html] that [definer] defines, called as a class method of
    [cls] with positional [args] and keyword [kwargs]. Lines 78-83 for
    [StartHandler]: [super(cls, cls)] is the next class after [cls] in the
    resolution order of [cls] that defines the method; a keyword given both
    by name and among [kwargs] is a [TypeError] of the call. [fuel] bounds the
    depth of calls; [None] when it runs out. *)
Fixpoint call_button_html (fuel : nat) (definer cls : klass) (args : list string)
  (kwargs : list (string * string)) : option (result string) :=
  match fuel with
  | O => None
  | S fuel' =>
      match definer with
      | HandlersStartHandler => Some (base_button_html cls args kwargs)
      | RedditStartHandler =>
          match List.find defines_button_html (tl (mro cls)) with
          | None => Some (Raised (AttributeError "button_html"))
          | Some definer' =>
              match dict_get kwargs "input_style" with
              | Some _ =>
                  Some (Raised (TypeError
                    "got multiple values for keyword argument 'input_style'"))
              | None =>
                  call_button_html fuel' definer' cls args
                    (("input_style", input_style) :: kwargs)
              end
          end
      | Subclass _ => Some (Raised (AttributeError "button_html"))
      end
  end.

(** [button_html] called on the class [cls]. *)
Definition button_html (fuel : nat) (cls : klass) (args : list string)
  (kwargs : list (string * string)) : option (result string) :=
  match List.find defines_button_html (mro cls) with
  | Some definer => call_button_html fuel definer cls args kwargs
  | None => Some (Raised (AttributeError "button_html"))
  end.

End ButtonHtml.

(** ** More on reading a run *)

Definition is_finish (e : event) : bool :=
  match e with
  | EvFinish _ _ => true
  | _ => false
  end.

(** A call that goes over the network to the provider. *)
Definition is_provider_call (e : event) : bool :=
  match e with
  | EvAuthorize _ | EvUserMe => true
  | _ => false
  end.

(** Every credential is stored under its own key name and has its required
    refresh token. *)
Definition store_well_formed (store : gmap string RedditAuth) : Prop :=
  forall id a, store !! id = Some a -> key_id a = id /\ is_Some (refresh_token a).

(** Every pending request is stored under its own state token, which is
    also its secret. *)
Definition pending_well_formed (store : gmap string models.OAuthRequestToken) : Prop :=
  forall k rec,
    store !! k = Some rec -> models.token_secret rec = k /\ models.state rec = k.

(** The place of a call in a callback that completes: lookup, client,
    exchange, profile, put, finish. The two calls that only Start makes come
    after them. *)
Definition callback_order (e : event) : nat :=
  match e with
  | EvGetRequestToken _ => 0
  | EvReddit _ => 1
  | EvAuthorize _ => 2
  | EvUserMe => 3
  | EvPutAuth _ => 4
  | EvFinish _ _ => 5
  | EvPutRequestToken _ => 6
  | EvAuthUrl _ _ _ => 7
  end.

(** [a] occurs in [b]: some text before it and some text after it make up
    [b]. *)
Definition occurs_in (a b : string) : Prop :=
  exists pre post, b = pre +:+ a +:+ post.

Module more_samples.

(** A provider whose grant carries no refresh token. *)
Definition grants_nothing : Provider :=
  {| authorize := fun _ _ => Returned None;
     me := fun _ => Returned (sample.redditor "alice" 1) |}.

(** A provider that reports a user without avatar. *)
Definition without_icon : Provider :=
  {| authorize := fun _ _ => Returned (Some "rt1");
     me := fun _ =>
       Returned {| attrs :=
         [("name", PyStr "alice"); ("id", PyStr "t2_abc"); ("comment_karma", PyInt 1);
          ("link_karma", PyInt 7); ("created_utc", PyFloat "1500000000.0")] |} |}.

(** The snapshot taken of the sample user alice. *)
Definition alice_snapshot : list (string * pyval) :=
  [("name", PyStr "alice"); ("comment_karma", PyInt 10);
   ("created_utc", PyFloat "1500000000.0"); ("id", PyStr "t2_abc");
   ("link_karma", PyInt 7); ("icon_img", PyStr "https://example.com/a.png")].

(** A blob that carries the token and no redirect path. *)
Definition blob_without_path : string :=
  util.encode_oauth_state [("state", "123456")].

(** A store with one credential, for alice. *)
Definition with_alice : world :=
  {| request_tokens := request_tokens (sample.issued "123456");
     auths := {[ "alice" := sample.credential "rt0" "alice" 3 ]};
     calls := [] |}.

(** A pending store whose record under 123456 was not written by Start. *)
Definition forged_pending : gmap string models.OAuthRequestToken :=
  {[ "123456" := {| models.token_secret := "a-secret"; models.state := "another-state" |} ]}.

(** A generic [button_html] that lists what it was called with. *)
Definition base_button (cls : klass) (args : list string)
  (kwargs : list (string * string)) : result string :=
  Returned (String.concat "," (args ++ map fst kwargs)).

End more_samples.

(** * Properties *)

(** ** Strings and numbers *)

Lemma append_nil (t : string) : EmptyString +:+ t = t.
Proof. reflexivity. Qed.

Lemma append_cons (c : ascii) (s t : string) : String c s +:+ t = String c (s +:+ t).
Proof. reflexivity. Qed.

Lemma append_assoc' (a b c : string) : (a +:+ b) +:+ c = a +:+ (b +:+ c).
Proof.
  induction a as [|x a IH]; [reflexivity |].
  rewrite !append_cons, IH. reflexivity.
Qed.

Lemma truthy_nonempty (s : string) : s <> EmptyString -> truthy s = true.
Proof. destruct s; [congruence | reflexivity]. Qed.

Lemma str_digits_more (fuel : nat) (n : Z) (acc : string) :
  10 <= n ->
  str_digits (S fuel) n acc = str_digits fuel (n / 10) (String (digit_char (n mod 10)) acc).
Proof.
  intros Hn. cbn [str_digits]. destruct (n <? 10) eqn:E; [apply Z.ltb_lt in E; lia | reflexivity].
Qed.

Lemma str_digits_last (fuel : nat) (n : Z) (acc : string) :
  n < 10 ->
  str_digits (S fuel) n acc = String (digit_char (n mod 10)) acc.
Proof.
  intros Hn. cbn [str_digits]. destruct (n <? 10) eqn:E; [reflexivity | apply Z.ltb_ge in E; lia].
Qed.

Lemma is_digit_digit_char (d : Z) : 0 <= d < 10 -> is_digit (digit_char d) = true.
Proof.
  intros Hd.
  assert (H : d = 0 \/ d = 1 \/ d = 2 \/ d = 3 \/ d = 4 \/
              d = 5 \/ d = 6 \/ d = 7 \/ d = 8 \/ d = 9) by lia.
  repeat (destruct H as [H | H]; [subst d; reflexivity |]).
  subst d; reflexivity.
Qed.

(** [str] of a number between 100000 and 999999, digit by digit. *)
Lemma str_int_six (r : Z) :
  100000 <= r <= 999999 ->
  str_int r =
    String (digit_char (r / 10 / 10 / 10 / 10 / 10 mod 10))
   (String (digit_char (r / 10 / 10 / 10 / 10 mod 10))
   (String (digit_char (r / 10 / 10 / 10 mod 10))
   (String (digit_char (r / 10 / 10 mod 10))
   (String (digit_char (r / 10 mod 10))
   (String (digit_char (r mod 10)) EmptyString))))).
Proof.
  intros Hr. unfold str_int.
  destruct (r <? 0) eqn:E; [apply Z.ltb_lt in E; lia |].
  assert (Hlog : 5 <= Z.log2 r).
  { change 5 with (Z.log2 32). apply Z.log2_le_mono. lia. }
  destruct (Z.to_nat (Z.log2 r)) as [|[|[|[|[|k]]]]] eqn:Ek; try lia.
  clear E Hlog Ek.
  do 5 (rewrite str_digits_more by (Z.div_mod_to_equations; lia)).
  rewrite str_digits_last by (Z.div_mod_to_equations; lia).
  reflexivity.
Qed.

Lemma str_int_six_digits (r : Z) :
  100000 <= r <= 999999 -> six_digits (str_int r) = true.
Proof.
  intros Hr. rewrite (str_int_six r Hr). unfold six_digits.
  cbn [String.length all_digits Nat.eqb andb].
  rewrite !is_digit_digit_char by (Z.div_mod_to_equations; lia). reflexivity.
Qed.

(** ** The oauth-state encoding *)

Module util_facts.
Import util.

Lemma unreserved_plain (c : ascii) :
  unreserved c = true ->
  Ascii.eqb c "+"%char = false /\ Ascii.eqb c "%"%char = false.
Proof.
  destruct c as [[] [] [] [] [] [] [] []]; vm_compute; intuition congruence.
Qed.

Lemma hex_pair (c : ascii) :
  hex_value (hex_digit (nat_of_ascii c / 16)) = Some (nat_of_ascii c / 16)%nat /\
  hex_value (hex_digit (nat_of_ascii c mod 16)) = Some (nat_of_ascii c mod 16)%nat /\
  ascii_of_nat (16 * (nat_of_ascii c / 16) + nat_of_ascii c mod 16) = c.
Proof.
  destruct c as [[] [] [] [] [] [] [] []]; vm_compute; auto.
Qed.

Lemma unquote_plus_quote_plus (s : string) : unquote_plus (quote_plus s) = s.
Proof.
  induction s as [|c s IH]; [reflexivity |].
  cbn [quote_plus]. destruct (unreserved c) eqn:U.
  - destruct (unreserved_plain c U) as [E1 E2].
    cbn [unquote_plus]. rewrite E1, E2, IH. reflexivity.
  - destruct (Ascii.eqb c " "%char) eqn:Sp.
    + apply Ascii.eqb_eq in Sp. subst c.
      cbn [unquote_plus]. change (Ascii.eqb "+"%char "+"%char) with true.
      cbv iota. rewrite IH. reflexivity.
    + destruct (hex_pair c) as (H1 & H2 & H3).
      cbn [unquote_plus].
      change (Ascii.eqb "%"%char "+"%char) with false.
      change (Ascii.eqb "%"%char "%"%char) with true.
      cbv iota. rewrite H1, H2, H3, IH. reflexivity.
Qed.

Lemma parse_string_body_escape (s rest : string) :
  parse_string_body (json_escape s +:+ String dquote rest) = Some (s, rest).
Proof.
  induction s as [|c s IH]; [reflexivity |].
  cbn [json_escape].
  destruct (Ascii.eqb c dquote || Ascii.eqb c backslash) eqn:E.
  - rewrite !append_cons. cbn [parse_string_body].
    change (Ascii.eqb backslash dquote) with false.
    change (Ascii.eqb backslash backslash) with true.
    cbv iota. rewrite E, IH. reflexivity.
  - apply orb_false_elim in E as [E1 E2].
    rewrite append_cons. cbn [parse_string_body].
    rewrite E1, E2, IH. reflexivity.
Qed.

Lemma parse_string_json_string (s rest : string) :
  parse_string (json_string s +:+ rest) = Some (s, rest).
Proof.
  unfold json_string, parse_string. rewrite append_cons.
  change (Ascii.eqb dquote dquote) with true. cbv iota.
  rewrite append_assoc'. apply parse_string_body_escape.
Qed.

Lemma parse_member_json_member (kv : string * string) (rest : string) :
  parse_member (json_member kv +:+ rest) = Some (kv, rest).
Proof.
  destruct kv as [k v]. unfold parse_member, json_member. cbn [fst snd].
  rewrite append_assoc', parse_string_json_string.
  rewrite append_cons. change (Ascii.eqb ":"%char ":"%char) with true. cbv iota.
  rewrite parse_string_json_string. reflexivity.
Qed.

Lemma parse_members_two (fuel : nat) (kv1 kv2 : string * string) :
  parse_members (S (S fuel))
    (json_member kv1 +:+ String ","%char (json_member kv2 +:+ String "}"%char EmptyString))
  = Some [kv1; kv2].
Proof.
  cbn [parse_members].
  rewrite !parse_member_json_member.
  reflexivity.
Qed.

Lemma json_loads_dumps_two (k1 v1 k2 v2 : string) :
  String.eqb k1 k2 = false ->
  json_loads_obj (json_dumps_obj [(k1, v1); (k2, v2)]) = Some [(k1, v1); (k2, v2)].
Proof.
  intros Hk. unfold json_dumps_obj, json_loads_obj.
  change (Ascii.eqb "{"%char "{"%char) with true. cbv iota.
  cbn [json_members]. rewrite append_assoc', append_cons.
  set (tail := json_member (k2, v2) +:+ String "}"%char EmptyString).
  assert (Hshape : exists c1 c2 t n,
             json_member (k1, v1) +:+ String ","%char tail = String c1 (String c2 t) /\
             String.length (json_member (k1, v1) +:+ String ","%char tail) = S (S n)).
  { unfold json_member, json_string. cbn [fst snd]. rewrite !append_cons.
    destruct (json_escape k1); rewrite ?append_nil, ?append_cons;
      cbn [String.length]; eauto 10. }
  destruct Hshape as (c1 & c2 & t & n & Hs & Hl).
  rewrite Hl. rewrite Hs at 1.
  unfold tail. rewrite parse_members_two.
  unfold dict_of_pairs. cbn [fold_left dict_set fst snd]. rewrite Hk. reflexivity.
Qed.

Lemma trim_nulls_two (k1 v1 k2 v2 : string) :
  v1 <> EmptyString -> v2 <> EmptyString ->
  trim_nulls [(k1, v1); (k2, v2)] = [(k1, v1); (k2, v2)].
Proof.
  intros H1 H2. unfold trim_nulls. cbn [List.filter snd].
  rewrite !truthy_nonempty by assumption. reflexivity.
Qed.

Lemma quote_plus_truthy (s : string) : s <> EmptyString -> truthy (quote_plus s) = true.
Proof.
  destruct s as [|c s]; [congruence |]. intros _. cbn [quote_plus].
  destruct (unreserved c); [reflexivity |].
  destruct (Ascii.eqb c " "%char); reflexivity.
Qed.

End util_facts.

(** ** The handlers *)

Ltac unfold_m :=
  cbv beta iota zeta delta
    [get redirect_url put_auth finish get_by_id put_request_token praw_Reddit
     auth_url py_assert bind lift ret raise emit].

Ltac proj :=
  cbn [fst snd request_tokens auths calls key_id refresh_token user_json].

(** Case analysis on the innermost scrutinee the goal is stuck on. *)
Ltac run_step :=
  match goal with
  | |- context [match ?x with _ => _ end] =>
      lazymatch x with
      | context [match _ with _ => _ end] => fail
      | context [new_calls] => fail
      | _ => destruct x eqn:?
      end
  end.

Lemma str_in_empty (b : string) : str_in EmptyString b = true.
Proof. destruct b; reflexivity. Qed.

Lemma new_calls_app (w : world) (l : list event) (rt : gmap string models.OAuthRequestToken)
  (au : gmap string RedditAuth) :
  new_calls w {| request_tokens := rt; auths := au; calls := calls w ++ l |} = l.
Proof. unfold new_calls. cbn [calls]. apply drop_app_length. Qed.

Lemma new_calls_nil (w : world) : new_calls w w = [].
Proof. unfold new_calls. apply drop_all. Qed.

(** Reading a dict: the value under a key that is there, [None] for a key
    that is not. *)
Lemma dict_get_found {A : Type} (pre post : list (string * A)) (k : string) (v : A) :
  ~ In k (map fst pre) -> dict_get (pre ++ (k, v) :: post) k = Some v.
Proof.
  induction pre as [| [k' v'] pre IH]; intros Hnot.
  - cbn [app dict_get]. rewrite String.eqb_refl. reflexivity.
  - cbn [app dict_get]. destruct (String.eqb_spec k' k) as [-> | _].
    + exfalso. apply Hnot. left. reflexivity.
    + apply IH. intros Hin. apply Hnot. right. exact Hin.
Qed.

Lemma dict_get_absent {A : Type} (d : list (string * A)) (k : string) :
  ~ In k (map fst d) -> dict_get d k = None.
Proof.
  induction d as [| [k' v'] d IH]; intros Hnot; [reflexivity |].
  cbn [dict_get]. destruct (String.eqb_spec k' k) as [-> | _].
  - exfalso. apply Hnot. left. reflexivity.
  - apply IH. intros Hin. apply Hnot. right. exact Hin.
Qed.

Section Properties.

Variables KEY SECRET : option string.
Variable encode : list (string * string) -> string.
Variable decode : string -> result (list (string * string)).
Variable dumps : list (string * pyval) -> string.
Variable url : Reddit -> list string -> string -> string -> string.

Local Abbreviation Start := (redirect_url KEY SECRET encode url).
Local Abbreviation Callback := (get KEY SECRET decode dumps).

(** The callback never writes to the pending-request store. *)
Lemma get_request_tokens (self : CallbackHandler) (provider : Provider) (w : world) :
  request_tokens (snd (Callback self provider w)) = request_tokens w.
Proof.
  unfold_m. repeat (run_step; proj; try reflexivity).
Qed.

(** A callback that ends in an exception has written no credential. *)
Lemma get_raised_auths (self : CallbackHandler) (provider : Provider) (w : world) (e : exn) :
  fst (Callback self provider w) = Raised e ->
  auths (snd (Callback self provider w)) = auths w.
Proof.
  unfold_m. repeat (run_step; proj; try reflexivity; try discriminate).
Qed.

(** The guard of line 96 holds and [error] occurs in ['access_denied']:
    the request ends in [finish(None, state=state)]. *)
Lemma get_decline (self : CallbackHandler) (provider : Provider) (w : world)
  (st : list (string * string)) :
  decode (request_get (request self) "state") = Returned st ->
  truthy (request_get (request self) "error")
    || negb (truthy_opt (dict_get st "state"))
    || negb (truthy (request_get (request self) "code")) = true ->
  str_in (request_get (request self) "error") "access_denied" = true ->
  Callback self provider w =
    (Returned tt,
     {| request_tokens := request_tokens w;
        auths := auths w;
        calls := calls w ++ [EvFinish None (FToken (dict_get st "state"))] |}).
Proof.
  intros Hd Hg Hin. unfold_m. rewrite Hd, Hg, Hin. reflexivity.
Qed.

(** The guard of line 96 holds and [error] does not occur in
    ['access_denied']: the request ends in a client error. *)
Lemma get_protocol_error (self : CallbackHandler) (provider : Provider) (w : world)
  (st : list (string * string)) :
  decode (request_get (request self) "state") = Returned st ->
  truthy (request_get (request self) "error")
    || negb (truthy_opt (dict_get st "state"))
    || negb (truthy (request_get (request self) "code")) = true ->
  str_in (request_get (request self) "error") "access_denied" = false ->
  Callback self provider w =
    (Raised (HTTPBadRequest ("Error: " +:+ request_get (request self) "error")), w).
Proof.
  intros Hd Hg Hin. unfold_m. rewrite Hd, Hg, Hin. reflexivity.
Qed.

(** Past the guard: no error, a state token and a code. *)
Lemma guard_passes (error code tok : string) (st : list (string * string)) :
  error = EmptyString -> dict_get st "state" = Some tok ->
  tok <> EmptyString -> code <> EmptyString ->
  truthy error || negb (truthy_opt (dict_get st "state")) || negb (truthy code) = false.
Proof.
  intros -> -> Ht Hc. cbn [truthy truthy_opt].
  rewrite !truthy_nonempty by assumption. reflexivity.
Qed.

(** The run of a callback that is past the guard and whose token is stored,
    up to the provider's answers. *)
Lemma get_authenticated (self : CallbackHandler) (provider : Provider) (w : world)
  (st : list (string * string)) (tok p : string) (rec : models.OAuthRequestToken) :
  request_get (request self) "error" = EmptyString ->
  decode (request_get (request self) "state") = Returned st ->
  dict_get st "state" = Some tok -> tok <> EmptyString ->
  dict_get st "to_path" = Some p ->
  request_get (request self) "code" <> EmptyString ->
  request_tokens w !! tok = Some rec ->
  let code := request_get (request self) "code" in
  let reddit :=
    {| client_id := KEY; client_secret := SECRET;
       redirect_uri := host_url (request self) +:+ p;
       user_agent := "oauth-dropin reddit identity checker" |} in
  let w1 :=
    {| request_tokens := request_tokens w; auths := auths w;
       calls := calls w ++ [EvGetRequestToken (Some tok); EvReddit reddit;
                            EvAuthorize code] |} in
  Callback self provider w =
    match authorize provider reddit code with
    | Raised e => (Raised e, w1)
    | Returned rt =>
        let w2 :=
          {| request_tokens := request_tokens w; auths := auths w;
             calls := calls w1 ++ [EvUserMe] |} in
        match me provider reddit with
        | Raised e => (Raised e, w2)
        | Returned user =>
            match user_attributes user attribute_list [] with
            | Raised e => (Raised e, w2)
            | Returned uj =>
                match str_user user with
                | Raised e => (Raised e, w2)
                | Returned uid =>
                    let auth :=
                      {| key_id := uid; refresh_token := rt; user_json := dumps uj |} in
                    match rt with
                    | None =>
                        (Raised (BadValueError
                                   "Entity has uninitialized properties: refresh_token"),
                         {| request_tokens := request_tokens w; auths := auths w;
                            calls := calls w2 ++ [EvPutAuth uid] |})
                    | Some _ =>
                        (Returned tt,
                         {| request_tokens := request_tokens w;
                            auths := <[uid := auth]> (auths w);
                            calls := calls w2 ++ [EvPutAuth uid;
                                                  EvFinish (Some auth) (FDict st)] |})
                    end
                end
            end
        end
    end.
Proof.
  intros He Hd Hs Ht Hp Hc Hrec code reddit w1.
  pose proof (guard_passes _ _ _ _ He Hs Ht Hc) as Hg.
  unfold_m. rewrite Hd, Hg, Hs, Hp. proj. rewrite Hrec.
  fold code. fold reddit.
  destruct (authorize provider reddit code) as [rt | e]; [| subst w1; proj; now rewrite <- !app_assoc].
  destruct (me provider reddit) as [user | e]; [| subst w1; proj; now rewrite <- !app_assoc].
  destruct (user_attributes user attribute_list []) as [uj | e];
    [| subst w1; proj; now rewrite <- !app_assoc].
  destruct (str_user user) as [uid | e]; [| subst w1; proj; now rewrite <- !app_assoc].
  destruct rt as [rt |]; subst w1; proj; now rewrite <- !app_assoc.
Qed.


(** *** The callback's guard and lookup *)

(** C1. A callback that is past the guard (no error, a state token, a code)
    and whose decoded state token has no pending request stored: the
    lookup of line 107 finds nothing and line 109 runs. The message it
    builds names [request_token_key], which is bound nowhere, so the
    request ends in a [NameError] and not in the client error
    ['Invalid oauth_token']; no credential is written. *)
Theorem callback_unknown_token (self : CallbackHandler) (provider : Provider)
  (w : world) (st : list (string * string)) (tok : string) :
  request_get (request self) "error" = EmptyString ->
  decode (request_get (request self) "state") = Returned st ->
  dict_get st "state" = Some tok -> tok <> EmptyString ->
  request_get (request self) "code" <> EmptyString ->
  request_tokens w !! tok = None ->
  Callback self provider w =
    (Raised (NameError "request_token_key"),
     {| request_tokens := request_tokens w;
        auths := auths w;
        calls := calls w ++ [EvGetRequestToken (Some tok)] |}).
Proof.
  intros He Hd Hs Ht Hc Hnone.
  pose proof (guard_passes _ _ _ _ He Hs Ht Hc) as Hg.
  unfold_m. rewrite Hd, Hg, Hs. proj. rewrite Hnone. reflexivity.
Qed.

(** C2. The test of line 97 is [error in ('access_denied')], a substring
    test on a string and not membership in a tuple. A callback whose guard
    holds and whose [error] is not ['access_denied'] but occurs in it (the
    empty string of an absent [error] with the code or the state missing,
    or a provider error such as ['denied']) does not end in a client
    error: it ends in [finish(None, state=state)], the decline path. *)
Theorem callback_substring_error_declines (self : CallbackHandler) (provider : Provider)
  (w : world) (st : list (string * string)) :
  decode (request_get (request self) "state") = Returned st ->
  truthy (request_get (request self) "error")
    || negb (truthy_opt (dict_get st "state"))
    || negb (truthy (request_get (request self) "code")) = true ->
  request_get (request self) "error" <> "access_denied" ->
  str_in (request_get (request self) "error") "access_denied" = true ->
  Callback self provider w =
    (Returned tt,
     {| request_tokens := request_tokens w;
        auths := auths w;
        calls := calls w ++ [EvFinish None (FToken (dict_get st "state"))] |}).
Proof.
  intros Hd Hg _ Hin. apply get_decline; assumption.
Qed.

(** C3, as the code has it. A callback with [error=access_denied] whose
    state blob decodes, whatever [code] is: the request returns after one
    call, [finish(None, state=state)], where [state] is the state token
    the decoded blob holds under its key [state], or [None] when the blob
    has no such key; neither store is written. The blob is decoded on
    line 92, before the error is looked at, so a blob that does not decode
    ends the request there. *)
Theorem callback_access_denied (self : CallbackHandler) (provider : Provider)
  (w : world) (st : list (string * string)) (state : option string) :
  request_get (request self) "error" = "access_denied" ->
  decode (request_get (request self) "state") = Returned st ->
  match state with
  | Some tok =>
      exists pre post,
        st = (pre ++ ("state", tok) :: post)%list /\ ~ In "state" (map fst pre)
  | None => ~ In "state" (map fst st)
  end ->
  Callback self provider w =
    (Returned tt,
     {| request_tokens := request_tokens w;
        auths := auths w;
        calls := calls w ++ [EvFinish None (FToken state)] |}).
Proof.
  intros He Hd Hst.
  assert (Hget : dict_get st "state" = state).
  { destruct state as [tok |].
    - destruct Hst as (pre & post & -> & Hnot). apply dict_get_found, Hnot.
    - apply dict_get_absent, Hst. }
  rewrite <- Hget.
  apply get_decline; [assumption | |]; rewrite He; reflexivity.
Qed.

(** C6. A callback that is past the guard and the lookup, and whose token
    exchange raises [e], or whose exchange returns and whose profile fetch
    raises [e]: the request ends in that same exception and the credential
    store is as it was. *)
Theorem callback_upstream_failure (self : CallbackHandler) (provider : Provider)
  (w : world) (st : list (string * string)) (tok p : string)
  (rec : models.OAuthRequestToken) (e : exn) :
  request_get (request self) "error" = EmptyString ->
  decode (request_get (request self) "state") = Returned st ->
  dict_get st "state" = Some tok -> tok <> EmptyString ->
  dict_get st "to_path" = Some p ->
  request_get (request self) "code" <> EmptyString ->
  request_tokens w !! tok = Some rec ->
  let code := request_get (request self) "code" in
  let reddit :=
    {| client_id := KEY; client_secret := SECRET;
       redirect_uri := host_url (request self) +:+ p;
       user_agent := "oauth-dropin reddit identity checker" |} in
  authorize provider reddit code = Raised e \/
  (exists rt, authorize provider reddit code = Returned rt /\
              me provider reddit = Raised e) ->
  fst (Callback self provider w) = Raised e /\
  auths (snd (Callback self provider w)) = auths w.
Proof.
  intros He Hd Hs Ht Hp Hc Hrec code reddit Hfail.
  assert (Hout : fst (Callback self provider w) = Raised e).
  { rewrite (get_authenticated self provider w st tok p rec He Hd Hs Ht Hp Hc Hrec).
    fold code. fold reddit.
    destruct Hfail as [Ha | (rt & Ha & Hm)].
    - rewrite Ha. reflexivity.
    - rewrite Ha, Hm. reflexivity. }
  split; [exact Hout | exact (get_raised_auths self provider w e Hout)].
Qed.

(** *** Start *)

(** The run of Start when both application credentials are set. *)
Lemma start_run (self : StartHandler) (state : option string) (r : Z) (w : world) :
  truthy_opt KEY = true -> truthy_opt SECRET = true ->
  let tok := start_token state r in
  let reddit :=
    {| client_id := KEY; client_secret := SECRET;
       redirect_uri := host_url (start_request self) +:+ to_path self;
       user_agent := "oauth-dropin reddit identity checker" |} in
  let st := encode [("state", tok); ("to_path", to_path self)] in
  Start self state r w =
    (Returned (url reddit ["identity"] st "permanent"),
     {| request_tokens :=
          <[tok := {| models.token_secret := tok; models.state := tok |}]>
            (request_tokens w);
        auths := auths w;
        calls := calls w ++ [EvReddit reddit; EvPutRequestToken tok;
                             EvAuthUrl ["identity"] st "permanent"] |}).
Proof.
  intros Hk Hs tok reddit st. unfold_m. rewrite Hk, Hs.
  cbn [andb]. cbv beta iota. proj.
  fold tok. fold reddit. fold st. now rewrite <- !app_assoc.
Qed.

(** C5. Start with both application credentials set: the request returns
    the authorization URL, which carries the state token in its blob; by
    then the pending request is stored under that token, and in the trace
    the [put] of line 72 comes before the call of [auth.url]. *)
Theorem start_persists_before_url (self : StartHandler) (state : option string)
  (r : Z) (w : world) :
  truthy_opt KEY = true -> truthy_opt SECRET = true ->
  let tok := start_token state r in
  let reddit :=
    {| client_id := KEY; client_secret := SECRET;
       redirect_uri := host_url (start_request self) +:+ to_path self;
       user_agent := "oauth-dropin reddit identity checker" |} in
  let st := encode [("state", tok); ("to_path", to_path self)] in
  let out := Start self state r w in
  fst out = Returned (url reddit ["identity"] st "permanent") /\
  request_tokens (snd out) !! tok
    = Some {| models.token_secret := tok; models.state := tok |} /\
  calls (snd out)
    = (calls w ++ [EvReddit reddit; EvPutRequestToken tok;
                   EvAuthUrl ["identity"] st "permanent"])%list.
Proof.
  intros Hk Hs tok reddit st out. subst out.
  rewrite (start_run self state r w Hk Hs). proj.
  split; [reflexivity |]. split; [apply lookup_insert_eq | reflexivity].
Qed.

(** C9, as the code has it. The two credentials are read when the module
    is loaded, and loading never fails; the assertion is the statement of
    line 64 inside [redirect_url]. With a credential missing or empty
    every Start request ends in an [AssertionError] with the world as it
    was: no client constructed, no call to the provider, no pending
    request written. *)
Theorem start_without_credentials (read : string -> option string)
  (self : StartHandler) (state : option string) (r : Z) (w : world) :
  truthy_opt (read "reddit_app_key") = false \/
  truthy_opt (read "reddit_app_secret") = false ->
  module_load read = Returned (read "reddit_app_key", read "reddit_app_secret") /\
  redirect_url (read "reddit_app_key") (read "reddit_app_secret") encode url
    self state r w =
    (Raised (AssertionError
       "Please fill in the reddit_app_key and reddit_app_secret files in your app's root directory."),
     w).
Proof.
  intros Hmiss. split; [reflexivity |].
  unfold_m.
  destruct Hmiss as [H | H]; rewrite H; [| rewrite andb_false_r]; reflexivity.
Qed.


(** *** Credentials *)

(** The credential a callback completes with is the one it stored, under
    its own key name. *)
Lemma get_credential (self : CallbackHandler) (provider : Provider) (w : world)
  (a : RedditAuth) :
  credential_of_run w (Callback self provider w) = Some a ->
  auths (snd (Callback self provider w)) = <[key_id a := a]> (auths w).
Proof.
  unfold credential_of_run. unfold_m.
  repeat (run_step; proj; try discriminate);
    rewrite <- ?app_assoc, ?new_calls_app, ?new_calls_nil;
    cbn [app last]; try discriminate.
  intros [= <-]. reflexivity.
Qed.

Lemma filter_key_absent (k : string) (l : list (string * RedditAuth)) :
  k ∉ l.*1 -> List.filter (fun kv => String.eqb (fst kv) k) l = [].
Proof.
  induction l as [| [k' v'] l IH]; [reflexivity |].
  cbn [fmap list_fmap List.filter fst]. intros Hnot.
  apply not_elem_of_cons in Hnot as [Hne Hnot].
  destruct (String.eqb k' k) eqn:E; [apply String.eqb_eq in E; congruence |].
  apply IH, Hnot.
Qed.

Lemma filter_key_unique (k : string) (v : RedditAuth) (l : list (string * RedditAuth)) :
  NoDup l.*1 -> (k, v) ∈ l ->
  List.filter (fun kv => String.eqb (fst kv) k) l = [(k, v)].
Proof.
  induction l as [| [k' v'] l IH]; intros Hnd Hin.
  - apply elem_of_nil in Hin as [].
  - cbn [fmap list_fmap fst] in Hnd. apply NoDup_cons in Hnd as [Hnot Hnd].
    cbn [List.filter fst].
    apply elem_of_cons in Hin as [Heq | Hin].
    + injection Heq as <- <-. rewrite String.eqb_refl.
      rewrite (filter_key_absent k l Hnot). reflexivity.
    + destruct (String.eqb k' k) eqn:E.
      * apply String.eqb_eq in E. subst k'. exfalso. apply Hnot.
        apply (list_elem_of_fmap_2 fst) in Hin. exact Hin.
      * apply IH; assumption.
Qed.

Lemma records_of_insert (k : string) (v : RedditAuth) (m : gmap string RedditAuth) :
  records_of k (<[k := v]> m) = [(k, v)].
Proof.
  unfold records_of. apply filter_key_unique.
  - apply NoDup_fst_map_to_list.
  - apply elem_of_map_to_list, lookup_insert_eq.
Qed.

(** C7. Two callbacks, one after the other, that both complete with a
    credential for the same key name: afterwards the store holds exactly
    one record under that name, the credential of the second completion
    (its refresh token, its profile snapshot). *)
Theorem callback_overwrites_credential (self1 self2 : CallbackHandler)
  (provider1 provider2 : Provider) (w : world) (a1 a2 : RedditAuth) :
  let out1 := Callback self1 provider1 w in
  let out2 := Callback self2 provider2 (snd out1) in
  credential_of_run w out1 = Some a1 ->
  credential_of_run (snd out1) out2 = Some a2 ->
  key_id a1 = key_id a2 ->
  records_of (key_id a1) (auths (snd out2)) = [(key_id a1, a2)] /\
  auths (snd out2) !! key_id a1 = Some a2 /\
  dom (auths (snd out2)) = dom (auths (snd out1)).
Proof.
  intros out1 out2 H1 H2 Hid. subst out1 out2.
  rewrite (get_credential _ _ _ _ H2).
  rewrite (get_credential _ _ _ _ H1).
  rewrite Hid. split; [apply records_of_insert |].
  split; [apply lookup_insert_eq |].
  rewrite insert_insert_eq, !dom_insert_L. reflexivity.
Qed.

(** C4, as the code has it. The callback reads the pending request and
    leaves it where it is: after any callback the record is still stored
    under its token, and a later callback that presents the same token
    (with no error, a code and a redirect path) passes the lookup again and
    submits its own code to the provider. *)
Theorem pending_request_survives_callback (self1 self2 : CallbackHandler)
  (provider1 provider2 : Provider) (w : world) (st : list (string * string))
  (tok p : string) (rec : models.OAuthRequestToken) :
  request_tokens w !! tok = Some rec ->
  request_get (request self2) "error" = EmptyString ->
  decode (request_get (request self2) "state") = Returned st ->
  dict_get st "state" = Some tok -> tok <> EmptyString ->
  dict_get st "to_path" = Some p ->
  request_get (request self2) "code" <> EmptyString ->
  let w1 := snd (Callback self1 provider1 w) in
  let reddit :=
    {| client_id := KEY; client_secret := SECRET;
       redirect_uri := host_url (request self2) +:+ p;
       user_agent := "oauth-dropin reddit identity checker" |} in
  request_tokens w1 !! tok = Some rec /\
  exists l,
    new_calls w1 (snd (Callback self2 provider2 w1)) =
      ([EvGetRequestToken (Some tok); EvReddit reddit;
        EvAuthorize (request_get (request self2) "code")] ++ l)%list.
Proof.
  intros Hrec He Hd Hs Ht Hp Hc w1 reddit.
  assert (Hrec1 : request_tokens w1 !! tok = Some rec).
  { subst w1. rewrite get_request_tokens. exact Hrec. }
  split; [exact Hrec1 |].
  rewrite (get_authenticated self2 provider2 w1 st tok p rec He Hd Hs Ht Hp Hc Hrec1).
  fold reddit.
  repeat (run_step; proj);
    rewrite <- ?app_assoc, new_calls_app; cbn [app]; eauto.
Qed.


(** *** Start, then callback *)

(** The snapshot taken of a user who has every whitelisted attribute. *)
Lemma user_attributes_whitelist (user : Redditor) (name : string) :
  dict_get (attrs user) "name" = Some (PyStr name) ->
  (forall a, In a attribute_list -> is_Some (dict_get (attrs user) a)) ->
  exists uj,
    user_attributes user attribute_list [] = Returned uj /\
    dict_get uj "name" = Some (PyStr name) /\
    dict_keys uj =
      ["name"; "comment_karma"; "created_utc"; "id"; "link_karma"; "icon_img"].
Proof.
  intros Hname Hall.
  destruct (Hall "comment_karma") as [v1 H1]; [cbn; tauto |].
  destruct (Hall "created_utc") as [v2 H2]; [cbn; tauto |].
  destruct (Hall "id") as [v3 H3]; [cbn; tauto |].
  destruct (Hall "link_karma") as [v4 H4]; [cbn; tauto |].
  destruct (Hall "icon_img") as [v5 H5]; [cbn; tauto |].
  exists [("name", PyStr name); ("comment_karma", v1); ("created_utc", v2);
          ("id", v3); ("link_karma", v4); ("icon_img", v5)].
  split; [| split; reflexivity].
  unfold attribute_list. cbn [user_attributes]. unfold getattr.
  rewrite Hname, H1, H2, H3, H4, H5. reflexivity.
Qed.

(** C10. Start with no caller state, both application credentials set and
    a draw [r] of [randint(100000,999999)], followed by the callback the
    provider redirects to (the emitted blob, a code, no error) when the
    provider grants the refresh token [rt] and reports the user [name]:
    the token has six digits, the pending request is stored under it, the
    URL asks for scope [identity] and duration [permanent], and the
    callback stores a credential under [name] with [rt] as refresh token
    and the whitelisted attributes, [name] among them, as profile. *)
Theorem start_then_callback (self : StartHandler) (cb : CallbackHandler)
  (provider : Provider) (w : world) (r : Z) (code rt name : string)
  (user : Redditor) :
  truthy_opt KEY = true -> truthy_opt SECRET = true ->
  100000 <= r <= 999999 ->
  let tok := str_int r in
  let blob := [("state", tok); ("to_path", to_path self)] in
  let reddit :=
    {| client_id := KEY; client_secret := SECRET;
       redirect_uri := host_url (start_request self) +:+ to_path self;
       user_agent := "oauth-dropin reddit identity checker" |} in
  decode (encode blob) = Returned blob ->
  host_url (request cb) = host_url (start_request self) ->
  request_get (request cb) "error" = EmptyString ->
  request_get (request cb) "state" = encode blob ->
  request_get (request cb) "code" = code -> code <> EmptyString ->
  authorize provider reddit code = Returned (Some rt) ->
  me provider reddit = Returned user ->
  dict_get (attrs user) "name" = Some (PyStr name) ->
  (forall a, In a attribute_list -> is_Some (dict_get (attrs user) a)) ->
  let out1 := Start self None r w in
  let out2 := Callback cb provider (snd out1) in
  six_digits tok = true /\
  fst out1 = Returned (url reddit ["identity"] (encode blob) "permanent") /\
  request_tokens (snd out1) !! tok
    = Some {| models.token_secret := tok; models.state := tok |} /\
  fst out2 = Returned tt /\
  exists uj,
    auths (snd out2) !! name
      = Some {| key_id := name; refresh_token := Some rt; user_json := dumps uj |} /\
    dict_get uj "name" = Some (PyStr name) /\
    dict_keys uj =
      ["name"; "comment_karma"; "created_utc"; "id"; "link_karma"; "icon_img"].
Proof.
  intros Hk Hs Hr tok blob reddit Hrt Hhost He Hst Hcode Hc Hauth Hme Hname Hall
    out1 out2.
  pose proof (start_run self None r w Hk Hs) as Hstart.
  cbn [start_token] in Hstart. fold tok blob reddit out1 in Hstart.
  assert (Hout : fst out1 = Returned (url reddit ["identity"] (encode blob) "permanent"))
    by (rewrite Hstart; reflexivity).
  assert (Hput : request_tokens (snd out1) !! tok
                 = Some {| models.token_secret := tok; models.state := tok |})
    by (rewrite Hstart; apply lookup_insert_eq).
  split; [apply str_int_six_digits, Hr |].
  split; [exact Hout |]. split; [exact Hput |].
  assert (Htok : tok <> EmptyString).
  { unfold tok. rewrite (str_int_six r Hr). discriminate. }
  destruct (user_attributes_whitelist user name Hname Hall) as (uj & Huj & Hn & Hkeys).
  assert (Hrun : out2 =
    (Returned tt,
     {| request_tokens := request_tokens (snd out1);
        auths := <[name := {| key_id := name; refresh_token := Some rt;
                              user_json := dumps uj |}]> (auths (snd out1));
        calls := (calls (snd out1) ++
                  [EvGetRequestToken (Some tok); EvReddit reddit;
                   EvAuthorize code; EvUserMe; EvPutAuth name;
                   EvFinish (Some {| key_id := name; refresh_token := Some rt;
                                     user_json := dumps uj |}) (FDict blob)])%list |})).
  { subst out2.
    rewrite (get_authenticated cb provider (snd out1) blob tok (to_path self) _
               He ltac:(rewrite Hst; exact Hrt) eq_refl Htok eq_refl
               ltac:(rewrite Hcode; exact Hc) Hput).
    rewrite Hcode, Hhost. fold reddit. rewrite Hauth, Hme, Huj.
    unfold str_user, getattr. rewrite Hname. proj.
    now rewrite <- !app_assoc. }
  rewrite Hrun. proj. split; [reflexivity |].
  exists uj. split; [apply lookup_insert_eq |]. split; assumption.
Qed.

End Properties.

(** C8. The oauth-state encoding: encoding the mapping of a state token and
    a redirect path, both non-empty, and decoding the result gives the
    mapping back. *)
Theorem oauth_state_encoding_round_trip (s p : string) :
  s <> EmptyString -> p <> EmptyString ->
  util.decode_oauth_state (util.encode_oauth_state [("state", s); ("to_path", p)])
  = Returned [("state", s); ("to_path", p)].
Proof.
  intros Hs Hp. unfold util.decode_oauth_state, util.encode_oauth_state.
  rewrite util_facts.trim_nulls_two by assumption.
  rewrite util_facts.quote_plus_truthy by (unfold util.json_dumps_obj; discriminate).
  rewrite util_facts.unquote_plus_quote_plus.
  rewrite util_facts.json_loads_dumps_two by reflexivity.
  reflexivity.
Qed.

(** ** Runs *)

Ltac by_eval := vm_compute; first [reflexivity | discriminate | congruence].

Section Runs.
Import sample.

(** A callback with a token that was never issued. *)
Lemma callback_unknown_token_run :
  run_callback (callback [("state", blob "123456"); ("code", "abc123")])
    (grants "rt1" "alice" 10) empty_world =
  (Raised (NameError "request_token_key"),
   {| request_tokens := request_tokens empty_world;
      auths := auths empty_world;
      calls := calls empty_world ++ [EvGetRequestToken (Some "123456")] |}).
Proof.
  exact (callback_unknown_token app_key app_secret util.decode_oauth_state
           util.json_dumps
           (callback [("state", blob "123456"); ("code", "abc123")])
           (grants "rt1" "alice" 10) empty_world st0 "123456"
           ltac:(by_eval) ltac:(by_eval) ltac:(by_eval) ltac:(by_eval)
           ltac:(by_eval) ltac:(by_eval)).
Defined.

(** A callback with neither [error] nor [code]. *)
Lemma callback_missing_code_run :
  run_callback (callback [("state", blob "123456")])
    (grants "rt1" "alice" 10) (issued "123456") =
  (Returned tt,
   {| request_tokens := request_tokens (issued "123456");
      auths := auths (issued "123456");
      calls := calls (issued "123456")
               ++ [EvFinish None (FToken (dict_get st0 "state"))] |}).
Proof.
  exact (callback_substring_error_declines app_key app_secret
           util.decode_oauth_state util.json_dumps
           (callback [("state", blob "123456")])
           (grants "rt1" "alice" 10) (issued "123456") st0
           ltac:(by_eval) ltac:(by_eval) ltac:(by_eval) ltac:(by_eval)).
Defined.

(** The provider reports [error=denied], with a state and a code. *)
Example callback_error_denied_run :
  fst (run_callback
         (callback [("error", "denied"); ("state", blob "123456"); ("code", "abc123")])
         (grants "rt1" "alice" 10) (issued "123456")) = Returned tt.
Proof. by_eval. Qed.

(** The provider reports [error=server_error]. *)
Example callback_server_error_run :
  fst (run_callback
         (callback [("error", "server_error"); ("state", blob "123456")])
         (grants "rt1" "alice" 10) (issued "123456"))
  = Raised (HTTPBadRequest "Error: server_error").
Proof. by_eval. Qed.

(** The user declined, and the provider sent a code all the same. *)
Lemma callback_access_denied_run :
  run_callback
    (callback [("error", "access_denied"); ("state", blob "123456"); ("code", "abc123")])
    (grants "rt1" "alice" 10) (issued "123456") =
  (Returned tt,
   {| request_tokens := request_tokens (issued "123456");
      auths := auths (issued "123456");
      calls := calls (issued "123456")
               ++ [EvFinish None (FToken (Some "123456"))] |}).
Proof.
  exact (callback_access_denied app_key app_secret util.decode_oauth_state
           util.json_dumps
           (callback [("error", "access_denied"); ("state", blob "123456");
                      ("code", "abc123")])
           (grants "rt1" "alice" 10) (issued "123456") st0 (Some "123456")
           ltac:(by_eval) ltac:(by_eval)
           ltac:(exists [], [("to_path", "/reddit/oauth_callback")];
                 split; [reflexivity | intros []])).
Defined.

(** C3, as stated, fails: the user declined and the state parameter is no
    blob. The decoder raises on line 92, the request ends in its client
    error and [finish] is not called. *)
Lemma callback_access_denied_undecodable :
  run_callback (callback [("error", "access_denied"); ("state", "garbage")])
    (grants "rt1" "alice" 10) (issued "123456") =
  (Raised (HTTPBadRequest "Invalid value for state parameter: garbage"),
   issued "123456").
Proof. by_eval. Qed.

(** The provider refuses the code. *)
Lemma callback_upstream_failure_run :
  let out :=
    run_callback (callback [("state", blob "123456"); ("code", "abc123")])
      refuses (issued "123456") in
  fst out = Raised (UpstreamError "invalid_grant") /\
  auths (snd out) = auths (issued "123456").
Proof.
  exact (callback_upstream_failure app_key app_secret util.decode_oauth_state
           util.json_dumps
           (callback [("state", blob "123456"); ("code", "abc123")])
           refuses (issued "123456") st0 "123456" "/reddit/oauth_callback"
           {| models.token_secret := "123456"; models.state := "123456" |}
           (UpstreamError "invalid_grant")
           ltac:(by_eval) ltac:(by_eval) ltac:(by_eval) ltac:(by_eval)
           ltac:(by_eval) ltac:(by_eval) ltac:(by_eval)
           (or_introl eq_refl)).
Defined.


(** Start with the sample configuration and the draw 123456. *)
Lemma start_persists_before_url_run :
  let reddit :=
    {| client_id := app_key; client_secret := app_secret;
       redirect_uri := "https://example.com/reddit/oauth_callback";
       user_agent := "oauth-dropin reddit identity checker" |} in
  let out := run_start app_key app_secret start None 123456 empty_world in
  fst out = Returned (praw.auth_url reddit ["identity"] (blob "123456") "permanent") /\
  request_tokens (snd out) !! "123456"
    = Some {| models.token_secret := "123456"; models.state := "123456" |} /\
  calls (snd out)
    = [EvReddit reddit; EvPutRequestToken "123456";
       EvAuthUrl ["identity"] (blob "123456") "permanent"].
Proof.
  pose proof (start_persists_before_url app_key app_secret util.encode_oauth_state
                praw.auth_url start None 123456 empty_world eq_refl eq_refl) as H.
  vm_compute in H. vm_compute. exact H.
Defined.

(** Start when only the key file was filled in. *)
Lemma start_without_credentials_run :
  module_load key_file_only = Returned (Some "app-key", None) /\
  run_start (Some "app-key") None start None 123456 empty_world =
    (Raised (AssertionError
       "Please fill in the reddit_app_key and reddit_app_secret files in your app's root directory."),
     empty_world).
Proof.
  exact (start_without_credentials util.encode_oauth_state praw.auth_url
           key_file_only start None 123456 empty_world (or_intror eq_refl)).
Defined.

(** C9, as stated, fails: with both credential files empty the module
    loads, so nothing aborts at startup; the configuration error comes with
    each Start request, the first and the one after it alike. *)
Lemma start_aborts_per_request :
  ~ aborts_at_startup empty_files /\
  module_load empty_files = Returned (Some EmptyString, Some EmptyString) /\
  let out1 := run_start (Some EmptyString) (Some EmptyString) start None 123456
                empty_world in
  let out2 := run_start (Some EmptyString) (Some EmptyString) start None 654321
                (snd out1) in
  fst out1 = Raised (AssertionError
    "Please fill in the reddit_app_key and reddit_app_secret files in your app's root directory.") /\
  fst out2 = fst out1.
Proof.
  split; [intros [e He]; discriminate He |].
  split; [reflexivity |]. split; by_eval.
Qed.

(** C4, as stated, fails: the token 123456 authenticates a first callback,
    which completes with a credential for alice, and then a second,
    different callback (another code, another user), which completes with
    a credential for mallory. *)
Lemma pending_request_replayed :
  let out1 :=
    run_callback (callback [("state", blob "123456"); ("code", "code-1")])
      (grants "rt1" "alice" 10) (issued "123456") in
  let out2 :=
    run_callback (callback [("state", blob "123456"); ("code", "code-2")])
      (grants "rt2" "mallory" 0) (snd out1) in
  credential_of_run (issued "123456") out1 = Some (credential "rt1" "alice" 10) /\
  credential_of_run (snd out1) out2 = Some (credential "rt2" "mallory" 0) /\
  auths (snd out2) !! "mallory" = Some (credential "rt2" "mallory" 0).
Proof. repeat split; by_eval. Qed.

(** The same two callbacks, read through the amended statement. *)
Lemma pending_request_survives_callback_run :
  let w1 :=
    snd (run_callback (callback [("state", blob "123456"); ("code", "code-1")])
           (grants "rt1" "alice" 10) (issued "123456")) in
  let reddit :=
    {| client_id := app_key; client_secret := app_secret;
       redirect_uri := "https://example.com" +:+ "/reddit/oauth_callback";
       user_agent := "oauth-dropin reddit identity checker" |} in
  request_tokens w1 !! "123456"
    = Some {| models.token_secret := "123456"; models.state := "123456" |} /\
  exists l,
    new_calls w1
      (snd (run_callback (callback [("state", blob "123456"); ("code", "code-2")])
              (grants "rt2" "mallory" 0) w1)) =
    ([EvGetRequestToken (Some "123456"); EvReddit reddit; EvAuthorize "code-2"] ++ l)%list.
Proof.
  exact (pending_request_survives_callback app_key app_secret
           util.decode_oauth_state util.json_dumps
           (callback [("state", blob "123456"); ("code", "code-1")])
           (callback [("state", blob "123456"); ("code", "code-2")])
           (grants "rt1" "alice" 10) (grants "rt2" "mallory" 0)
           (issued "123456") st0 "123456" "/reddit/oauth_callback"
           {| models.token_secret := "123456"; models.state := "123456" |}
           ltac:(by_eval) ltac:(by_eval) ltac:(by_eval) ltac:(by_eval)
           ltac:(by_eval) ltac:(by_eval) ltac:(by_eval)).
Defined.

(** Alice authorizes twice, through two Start tokens. *)
Lemma callback_overwrites_credential_run :
  let out1 :=
    run_callback (callback [("state", blob "123456"); ("code", "code-1")])
      (grants "rt1" "alice" 10) (issued_both "123456" "654321") in
  let out2 :=
    run_callback
      (callback [("state",
                  util.encode_oauth_state
                    [("state", "654321"); ("to_path", "/reddit/oauth_callback")]);
                 ("code", "code-2")])
      (grants "rt2" "alice" 25) (snd out1) in
  records_of "alice" (auths (snd out2)) = [("alice", credential "rt2" "alice" 25)] /\
  auths (snd out2) !! "alice" = Some (credential "rt2" "alice" 25) /\
  dom (auths (snd out2)) = dom (auths (snd out1)).
Proof.
  exact (callback_overwrites_credential app_key app_secret
           util.decode_oauth_state util.json_dumps
           (callback [("state", blob "123456"); ("code", "code-1")])
           (callback [("state",
                       util.encode_oauth_state
                         [("state", "654321"); ("to_path", "/reddit/oauth_callback")]);
                      ("code", "code-2")])
           (grants "rt1" "alice" 10) (grants "rt2" "alice" 25)
           (issued_both "123456" "654321")
           (credential "rt1" "alice" 10) (credential "rt2" "alice" 25)
           ltac:(by_eval) ltac:(by_eval) eq_refl).
Defined.

(** The sample token and path through the encoding. *)
Lemma oauth_state_encoding_round_trip_run :
  util.decode_oauth_state (blob "123456") = Returned st0.
Proof.
  exact (oauth_state_encoding_round_trip "123456" "/reddit/oauth_callback"
           ltac:(discriminate) ltac:(discriminate)).
Defined.

(** The scenario of the specification: the draw 123456, the code
    [abc123], the refresh token [rt1] and the user [alice]. *)
Lemma start_then_callback_run :
  let out1 := run_start app_key app_secret start None 123456 empty_world in
  let out2 :=
    run_callback (callback [("state", blob "123456"); ("code", "abc123")])
      (grants "rt1" "alice" 10) (snd out1) in
  six_digits (str_int 123456) = true /\
  fst out2 = Returned tt /\
  refresh_token <$> (auths (snd out2) !! "alice") = Some (Some "rt1").
Proof.
  destruct (start_then_callback app_key app_secret util.encode_oauth_state
              util.decode_oauth_state util.json_dumps praw.auth_url
              start (callback [("state", blob "123456"); ("code", "abc123")])
              (grants "rt1" "alice" 10) empty_world 123456 "abc123" "rt1" "alice"
              (redditor "alice" 10)
              eq_refl eq_refl ltac:(lia)
              ltac:(by_eval) ltac:(by_eval) ltac:(by_eval) ltac:(by_eval)
              ltac:(by_eval) ltac:(by_eval) eq_refl eq_refl eq_refl
              ltac:(intros a Ha; cbn in Ha;
                    repeat (destruct Ha as [<- | Ha]; [eexists; reflexivity |]); destruct Ha))
    as (H1 & _ & _ & H4 & uj & H5 & _ & _).
  split; [exact H1 |]. split; [exact H4 |].
  unfold run_callback, run_start. rewrite H5. reflexivity.
Defined.

End Runs.


(** * More properties of the module *)

Lemma guard_fails_inv (error code : string) (state : option string) :
  truthy error || negb (truthy_opt state) || negb (truthy code) = false ->
  error = EmptyString /\ (exists tok, state = Some tok /\ tok <> EmptyString) /\
  code <> EmptyString.
Proof.
  intros H. apply orb_false_elim in H as [H Hc]. apply orb_false_elim in H as [He Hs].
  split; [destruct error; [reflexivity | discriminate] |]. split.
  - destruct state as [[| c tok] |]; try discriminate. eexists; split; [reflexivity | discriminate].
  - destruct code; [discriminate | discriminate].
Qed.

Lemma prefix_occurs (a b : string) :
  String.prefix a b = true <-> exists post, b = a +:+ post.
Proof.
  revert b. induction a as [| c a IH]; intros b.
  - split; [intros _; exists b; reflexivity | intros _; destruct b; reflexivity].
  - destruct b as [| c' b]; cbn [String.prefix].
    + split; [discriminate | intros [post H]; discriminate H].
    + destruct (ascii_dec c c') as [-> | Hne].
      * rewrite IH. split; intros [post H]; exists post.
        -- rewrite append_cons, H. reflexivity.
        -- rewrite append_cons in H. injection H as H. exact H.
      * split; [discriminate |]. intros [post H]. rewrite append_cons in H.
        injection H as H1 _. congruence.
Qed.

(** [str_in] is the substring test. *)
Lemma str_in_occurs (a b : string) : str_in a b = true <-> occurs_in a b.
Proof.
  unfold occurs_in. induction b as [| c b IH].
  - cbn [str_in]. rewrite orb_false_r, prefix_occurs. split.
    + intros [post H]. exists EmptyString, post. exact H.
    + intros ([| c pre] & post & H); [exists post; exact H |].
      rewrite append_cons in H. discriminate H.
  - cbn [str_in]. rewrite orb_true_iff, prefix_occurs, IH. split.
    + intros [[post H] | (pre & post & H)].
      * exists EmptyString, post. exact H.
      * exists (String c pre), post. rewrite append_cons, H. reflexivity.
    + intros ([| c' pre] & post & H).
      * left. exists post. exact H.
      * right. rewrite append_cons in H. injection H as _ H. exists pre, post. exact H.
Qed.

(** *** The profile snapshot *)

(** The snapshot of a user who lacks a whitelisted attribute fails on the
    first one that is missing. *)
Lemma user_attributes_missing (user : Redditor) (l : list string) :
  (exists a, In a l /\ dict_get (attrs user) a = None) ->
  exists a, In a l /\ dict_get (attrs user) a = None /\
    forall acc, user_attributes user l acc = Raised (AttributeError a).
Proof.
  induction l as [| x l IH]; intros (a & Hin & Hnone); [destruct Hin |].
  destruct (dict_get (attrs user) x) as [v |] eqn:Hx.
  - destruct Hin as [-> | Hin]; [congruence |].
    destruct (IH (ex_intro _ a (conj Hin Hnone))) as (a' & Hin' & Hnone' & Hrun).
    exists a'. split; [right; exact Hin' |]. split; [exact Hnone' |].
    intros acc. cbn [user_attributes]. unfold getattr. rewrite Hx. apply Hrun.
  - exists x. split; [left; reflexivity |]. split; [exact Hx |].
    intros acc. cbn [user_attributes]. unfold getattr. rewrite Hx. reflexivity.
Qed.

(** X10. The profile snapshot of lines 121-128, when it is taken without
    error: six keys, [name] once although the list names it twice, in the
    order of the list; under each the user's attribute of that name; and no
    attribute off the list. *)
Theorem user_attributes_snapshot (user : Redditor) (uj : list (string * pyval)) :
  user_attributes user attribute_list [] = Returned uj ->
  dict_keys uj
    = ["name"; "comment_karma"; "created_utc"; "id"; "link_karma"; "icon_img"] /\
  (forall k, In k attribute_list -> dict_get uj k = dict_get (attrs user) k) /\
  (forall k, ~ In k attribute_list -> dict_get uj k = None).
Proof.
  unfold attribute_list. cbn [user_attributes]. unfold getattr.
  destruct (dict_get (attrs user) "name") as [v0 |] eqn:H0; [| discriminate].
  destruct (dict_get (attrs user) "comment_karma") as [v1 |] eqn:H1; [| discriminate].
  destruct (dict_get (attrs user) "created_utc") as [v2 |] eqn:H2; [| discriminate].
  destruct (dict_get (attrs user) "id") as [v3 |] eqn:H3; [| discriminate].
  destruct (dict_get (attrs user) "link_karma") as [v4 |] eqn:H4; [| discriminate].
  destruct (dict_get (attrs user) "icon_img") as [v5 |] eqn:H5; [| discriminate].
  intros [= <-]. split; [reflexivity |]. split.
  - intros k Hin. cbn in Hin.
    repeat (destruct Hin as [<- | Hin]; [symmetry; assumption |]). destruct Hin.
  - intros k Hnot. cbn in Hnot.
    vm_compute dict_set. cbn [dict_get].
    repeat match goal with
           | |- context [String.eqb ?a k] =>
               destruct (String.eqb_spec a k) as [Heq | _]; [exfalso; apply Hnot; tauto |]
           end.
    reflexivity.
Qed.

Section MoreProperties.

Variables KEY SECRET : option string.
Variable encode : list (string * string) -> string.
Variable decode : string -> result (list (string * string)).
Variable dumps : list (string * pyval) -> string.
Variable url : Reddit -> list string -> string -> string -> string.

Local Abbreviation Start := (redirect_url KEY SECRET encode url).
Local Abbreviation Callback := (get KEY SECRET decode dumps).

(** *** The callback, path by path *)

(** X1. The state blob is decoded on line 92, before anything is tested: when
    the decoder raises, the request ends in that exception with the world as
    it was, whatever [error] and [code] are, [error=access_denied]
    included. *)
Theorem callback_decode_failure (self : CallbackHandler) (provider : Provider)
  (w : world) (e : exn) :
  decode (request_get (request self) "state") = Raised e ->
  Callback self provider w = (Raised e, w).
Proof.
  intros Hd. unfold_m. rewrite Hd. reflexivity.
Qed.

(** X2. An [error] that does not occur in ['access_denied'] ends the request
    before either store is read or written and before anything is called:
    in the exception of the decoder when the state blob does not decode
    (line 92), and otherwise in the client error ['Error: ' + error],
    whether or not the state token is stored and a code came with it. *)
Theorem callback_provider_error (self : CallbackHandler) (provider : Provider)
  (w : world) :
  ~ occurs_in (request_get (request self) "error") "access_denied" ->
  Callback self provider w =
    (match decode (request_get (request self) "state") with
     | Returned _ =>
         Raised (HTTPBadRequest ("Error: " +:+ request_get (request self) "error"))
     | Raised e => Raised e
     end, w).
Proof.
  intros Hocc.
  assert (Hin : str_in (request_get (request self) "error") "access_denied" = false).
  { destruct (str_in _ _) eqn:E; [| reflexivity].
    apply str_in_occurs in E. contradiction. }
  assert (He : truthy (request_get (request self) "error") = true).
  { destruct (request_get (request self) "error"); [| reflexivity].
    rewrite str_in_empty in Hin. discriminate. }
  unfold_m. destruct (decode (request_get (request self) "state")) as [st | e];
    [| reflexivity].
  rewrite He, Hin. reflexivity.
Qed.

(** X3. When the guard of line 96 holds (an error, or no state token, or no
    code), the request returns normally exactly when [error] occurs in
    ['access_denied'] as a substring, the empty [error] included. *)
Theorem callback_decline_iff_substring (self : CallbackHandler) (provider : Provider)
  (w : world) (st : list (string * string)) :
  decode (request_get (request self) "state") = Returned st ->
  truthy (request_get (request self) "error")
    || negb (truthy_opt (dict_get st "state"))
    || negb (truthy (request_get (request self) "code")) = true ->
  fst (Callback self provider w) = Returned tt <->
  occurs_in (request_get (request self) "error") "access_denied".
Proof.
  intros Hd Hg. rewrite <- str_in_occurs.
  destruct (str_in (request_get (request self) "error") "access_denied") eqn:Hin.
  - rewrite (get_decline KEY SECRET decode dumps self provider w st Hd Hg Hin).
    split; reflexivity.
  - rewrite (get_protocol_error KEY SECRET decode dumps self provider w st Hd Hg Hin).
    split; discriminate.
Qed.

(** A completed callback, taken apart. *)
Lemma get_completed_inv (self : CallbackHandler) (provider : Provider) (w : world)
  (a : RedditAuth) :
  credential_of_run w (Callback self provider w) = Some a ->
  exists st tok p rec rt user uj,
    request_get (request self) "error" = EmptyString /\
    decode (request_get (request self) "state") = Returned st /\
    dict_get st "state" = Some tok /\ tok <> EmptyString /\
    dict_get st "to_path" = Some p /\
    request_get (request self) "code" <> EmptyString /\
    request_tokens w !! tok = Some rec /\
    let reddit :=
      {| client_id := KEY; client_secret := SECRET;
         redirect_uri := host_url (request self) +:+ p;
         user_agent := "oauth-dropin reddit identity checker" |} in
    authorize provider reddit (request_get (request self) "code") = Returned (Some rt) /\
    me provider reddit = Returned user /\
    user_attributes user attribute_list [] = Returned uj /\
    str_user user = Returned (key_id a) /\
    a = {| key_id := key_id a; refresh_token := Some rt; user_json := dumps uj |}.
Proof.
  unfold credential_of_run. unfold_m.
  repeat (run_step; proj; try discriminate);
    rewrite <- ?app_assoc, ?new_calls_app, ?new_calls_nil;
    cbn [app last]; try discriminate.
  intros [= <-]. proj.
  match goal with
  | H : _ || _ || _ = false |- _ => apply guard_fails_inv in H as (He & (tok & Hs & Ht) & Hc)
  end.
  injection Hs as <-.
  do 7 eexists. repeat (split; [eassumption || reflexivity |]). reflexivity.
Qed.

(** A callback that does not complete leaves the credential store alone. *)
Lemma get_not_completed (self : CallbackHandler) (provider : Provider) (w : world) :
  credential_of_run w (Callback self provider w) = None ->
  auths (snd (Callback self provider w)) = auths w.
Proof.
  unfold credential_of_run. unfold_m.
  repeat (run_step; proj; try reflexivity);
    rewrite <- ?app_assoc, ?new_calls_app, ?new_calls_nil;
    cbn [app last]; try reflexivity.
  discriminate.
Qed.


Ltac guard_facts :=
  match goal with
  | H : _ || _ || _ = false |- _ =>
      let He := fresh "He" in
      let tok := fresh "tok" in
      let Hs := fresh "Hs" in
      let Ht := fresh "Ht" in
      let Hc := fresh "Hc" in
      apply guard_fails_inv in H as (He & (tok & Hs & Ht) & Hc);
      injection Hs as <-
  end.

(** X4. The provider is contacted only for an authenticated request: when
    the trace of a callback holds a call of [auth.authorize] or [user.me],
    the request carried no error, a code, and a state token under which a
    pending request is stored. *)
Theorem callback_provider_call_authenticated (self : CallbackHandler)
  (provider : Provider) (w : world) (e : event) :
  e ∈ new_calls w (snd (Callback self provider w)) ->
  is_provider_call e = true ->
  request_get (request self) "error" = EmptyString /\
  request_get (request self) "code" <> EmptyString /\
  exists st tok rec,
    decode (request_get (request self) "state") = Returned st /\
    dict_get st "state" = Some tok /\ tok <> EmptyString /\
    request_tokens w !! tok = Some rec.
Proof.
  unfold_m.
  repeat (run_step; proj);
    rewrite <- ?app_assoc, ?new_calls_app, ?new_calls_nil; cbn [app];
    intros Hin Hp;
    repeat (apply elem_of_cons in Hin as [-> | Hin]; [try discriminate Hp |]);
    try (apply elem_of_nil in Hin as []);
    guard_facts; (split; [assumption |]); (split; [assumption |]);
    do 3 eexists; eauto.
Qed.

(** X5. What a callback writes: nothing in the pending-request store; in
    the credential store nothing unless it completes, and then the completed
    credential under its key name, every other record staying as it was. *)
Theorem callback_writes (self : CallbackHandler) (provider : Provider) (w : world) :
  let out := Callback self provider w in
  request_tokens (snd out) = request_tokens w /\
  auths (snd out) =
    match credential_of_run w out with
    | Some a => <[key_id a := a]> (auths w)
    | None => auths w
    end.
Proof.
  intros out. subst out. split; [apply get_request_tokens |].
  destruct (credential_of_run w (Callback self provider w)) as [a |] eqn:Hc.
  - apply get_credential, Hc.
  - apply get_not_completed, Hc.
Qed.

(** X6. The callback keeps the credential store well formed: if every
    credential is stored under its own key name and has a refresh token
    before the request, the same holds after it. *)
Theorem callback_keeps_store_well_formed (self : CallbackHandler)
  (provider : Provider) (w : world) :
  store_well_formed (auths w) ->
  store_well_formed (auths (snd (Callback self provider w))).
Proof.
  intros Hwf.
  destruct (credential_of_run w (Callback self provider w)) as [a |] eqn:Hc.
  - rewrite (get_credential _ _ _ _ _ _ _ _ Hc).
    destruct (get_completed_inv self provider w a Hc)
      as (st & tok & p & rec & rt & user & uj & _ & _ & _ & _ & _ & _ & _ & _ & _ & _ & _ & Ha).
    intros id a' Hl. destruct (decide (key_id a = id)) as [<- | Hne].
    + rewrite lookup_insert_eq in Hl. injection Hl as <-.
      split; [reflexivity |]. rewrite Ha. cbn [refresh_token]. eauto.
    + rewrite lookup_insert_ne in Hl by exact Hne. apply Hwf, Hl.
  - rewrite (get_not_completed _ _ _ Hc). exact Hwf.
Qed.

(** X7. A grant without refresh token ([auth.authorize] returns [None])
    never completes: the request ends in an exception with the credential
    store as it was, and when the profile is fetched and read without error
    that exception is the [put] refusing the unset required property. *)
Theorem callback_no_refresh_token (self : CallbackHandler) (provider : Provider)
  (w : world) (st : list (string * string)) (tok p : string)
  (rec : models.OAuthRequestToken) :
  request_get (request self) "error" = EmptyString ->
  decode (request_get (request self) "state") = Returned st ->
  dict_get st "state" = Some tok -> tok <> EmptyString ->
  dict_get st "to_path" = Some p ->
  request_get (request self) "code" <> EmptyString ->
  request_tokens w !! tok = Some rec ->
  let reddit :=
    {| client_id := KEY; client_secret := SECRET;
       redirect_uri := host_url (request self) +:+ p;
       user_agent := "oauth-dropin reddit identity checker" |} in
  authorize provider reddit (request_get (request self) "code") = Returned None ->
  exists e,
    fst (Callback self provider w) = Raised e /\
    auths (snd (Callback self provider w)) = auths w /\
    (forall user uj uid,
       me provider reddit = Returned user ->
       user_attributes user attribute_list [] = Returned uj ->
       str_user user = Returned uid ->
       e = BadValueError "Entity has uninitialized properties: refresh_token").
Proof.
  intros He Hd Hs Ht Hp Hc Hrec reddit Hauth.
  rewrite (get_authenticated KEY SECRET decode dumps self provider w st tok p rec
             He Hd Hs Ht Hp Hc Hrec).
  fold reddit. rewrite Hauth.
  destruct (me provider reddit) as [user | e] eqn:Hme.
  2: { exists e. proj. split; [reflexivity |]. split; [reflexivity |].
       intros ? ? ? H; discriminate H. }
  destruct (user_attributes user attribute_list []) as [uj | e] eqn:Huj.
  2: { exists e. proj. split; [reflexivity |]. split; [reflexivity |].
       intros ? ? ? H1 H2 _. injection H1 as <-. congruence. }
  destruct (str_user user) as [uid | e] eqn:Huid.
  2: { exists e. proj. split; [reflexivity |]. split; [reflexivity |].
       intros ? ? ? H1 _ H3. injection H1 as <-. congruence. }
  eexists. proj. split; [reflexivity |]. split; reflexivity.
Qed.

(** X8. A blob that carries the state token and no [to_path]: the request
    passes the lookup and then ends in the [TypeError] of line 113, where the
    host URL is concatenated with [None]; no client is constructed, the
    provider is not called and nothing is written. *)
Theorem callback_missing_to_path (self : CallbackHandler) (provider : Provider)
  (w : world) (st : list (string * string)) (tok : string)
  (rec : models.OAuthRequestToken) :
  request_get (request self) "error" = EmptyString ->
  decode (request_get (request self) "state") = Returned st ->
  dict_get st "state" = Some tok -> tok <> EmptyString ->
  dict_get st "to_path" = None ->
  request_get (request self) "code" <> EmptyString ->
  request_tokens w !! tok = Some rec ->
  Callback self provider w =
    (Raised (TypeError "can only concatenate str (not 'NoneType') to str"),
     {| request_tokens := request_tokens w;
        auths := auths w;
        calls := calls w ++ [EvGetRequestToken (Some tok)] |}).
Proof.
  intros He Hd Hs Ht Hp Hc Hrec.
  pose proof (guard_passes _ _ _ _ He Hs Ht Hc) as Hg.
  unfold_m. rewrite Hd, Hg, Hs, Hp. proj. rewrite Hrec. reflexivity.
Qed.

(** X9. A user who lacks one of the whitelisted attributes: the request ends
    in the [AttributeError] of a missing attribute after both calls to the
    provider, so the refresh token was granted, and no credential is
    stored. *)
Theorem callback_missing_attribute (self : CallbackHandler) (provider : Provider)
  (w : world) (st : list (string * string)) (tok p : string)
  (rec : models.OAuthRequestToken) (rt : option string) (user : Redditor) :
  request_get (request self) "error" = EmptyString ->
  decode (request_get (request self) "state") = Returned st ->
  dict_get st "state" = Some tok -> tok <> EmptyString ->
  dict_get st "to_path" = Some p ->
  request_get (request self) "code" <> EmptyString ->
  request_tokens w !! tok = Some rec ->
  let code := request_get (request self) "code" in
  let reddit :=
    {| client_id := KEY; client_secret := SECRET;
       redirect_uri := host_url (request self) +:+ p;
       user_agent := "oauth-dropin reddit identity checker" |} in
  authorize provider reddit code = Returned rt ->
  me provider reddit = Returned user ->
  (exists a, In a attribute_list /\ dict_get (attrs user) a = None) ->
  exists a,
    In a attribute_list /\ dict_get (attrs user) a = None /\
    Callback self provider w =
      (Raised (AttributeError a),
       {| request_tokens := request_tokens w;
          auths := auths w;
          calls := calls w ++ [EvGetRequestToken (Some tok); EvReddit reddit;
                               EvAuthorize code; EvUserMe] |}).
Proof.
  intros He Hd Hs Ht Hp Hc Hrec code reddit Hauth Hme Hmiss.
  destruct (user_attributes_missing user attribute_list Hmiss) as (a & Hin & Hnone & Hrun).
  exists a. split; [exact Hin |]. split; [exact Hnone |].
  rewrite (get_authenticated KEY SECRET decode dumps self provider w st tok p rec
             He Hd Hs Ht Hp Hc Hrec).
  fold code. fold reddit. rewrite Hauth, Hme, Hrun. proj.
  now rewrite <- !app_assoc.
Qed.

(** X11. The credential a callback completes with, read through the methods
    of [RedditAuth]: its access token is the refresh token the provider
    granted for the code of this request, its display name is the name of
    the user the provider reported, the credential is stored under that
    name, and its site is reddit. *)
Theorem completed_credential_accessors (self : CallbackHandler) (provider : Provider)
  (w : world) (a : RedditAuth) :
  credential_of_run w (Callback self provider w) = Some a ->
  site_name a = "reddit" /\
  auths (snd (Callback self provider w)) !! user_display_name a = Some a /\
  exists reddit rt user,
    authorize provider reddit (request_get (request self) "code") = Returned (Some rt) /\
    access_token a = Some rt /\
    me provider reddit = Returned user /\
    dict_get (attrs user) "name" = Some (PyStr (user_display_name a)).
Proof.
  intros Hc. split; [reflexivity |]. split.
  - rewrite (get_credential _ _ _ _ _ _ _ _ Hc). apply lookup_insert_eq.
  - destruct (get_completed_inv self provider w a Hc)
      as (st & tok & p & rec & rt & user & uj & _ & _ & _ & _ & _ & _ & _ & Hauth & Hme & _ & Hstr & Ha).
    eexists _, rt, user. split; [exact Hauth |].
    split; [unfold access_token; rewrite Ha; reflexivity |].
    split; [exact Hme |].
    unfold user_display_name. unfold str_user, getattr in Hstr.
    destruct (dict_get (attrs user) "name") as [[| n | | |] |]; try discriminate.
    injection Hstr as ->. reflexivity.
Qed.

(** X12. [finish] and the way a callback ends: a request that returns has
    called [finish] exactly once, as its last call; a request that ends in an
    exception has not called it. *)
Theorem callback_finish_once (self : CallbackHandler) (provider : Provider) (w : world) :
  let out := Callback self provider w in
  let added := new_calls w (snd out) in
  match fst out with
  | Returned _ =>
      exists before auth state,
        added = (before ++ [EvFinish auth state])%list /\
        List.filter is_finish before = []
  | Raised _ => List.filter is_finish added = []
  end.
Proof.
  cbv zeta. unfold_m.
  repeat (run_step; proj);
    rewrite <- ?app_assoc, ?new_calls_app, ?new_calls_nil; cbn [app];
    try reflexivity.
  - exists [], None, (FToken (dict_get a "state")). split; reflexivity.
  - eexists [_; _; _; _; _], _, _. split; reflexivity.
Qed.


(** *** Start *)

Lemma str_digits_nonempty (fuel : nat) (n : Z) (acc : string) :
  acc <> EmptyString -> str_digits fuel n acc <> EmptyString.
Proof.
  revert n acc. induction fuel as [| fuel IH]; intros n acc Hacc; [exact Hacc |].
  cbn [str_digits]. destruct (n <? 10); [discriminate |]. apply IH. discriminate.
Qed.

Lemma str_int_nonempty (n : Z) : str_int n <> EmptyString.
Proof.
  unfold str_int. destruct (n <? 0); [discriminate |].
  cbn [str_digits]. destruct (n <? 10); [discriminate |].
  apply str_digits_nonempty. discriminate.
Qed.

(** The state token Start goes on with is never empty. *)
Lemma start_token_nonempty (state : option string) (r : Z) :
  start_token state r <> EmptyString.
Proof.
  destruct state as [[| c s] |]; cbn [start_token truthy];
    [apply str_int_nonempty | discriminate | apply str_int_nonempty].
Qed.

(** X13. What Start touches, with or without credentials: the credential
    store is left alone, the provider is not called, and of the pending
    requests only the one under the state token of this request can
    change. *)
Theorem start_touches_one_record (self : StartHandler) (state : option string)
  (r : Z) (w : world) :
  let out := Start self state r w in
  auths (snd out) = auths w /\
  List.filter is_provider_call (new_calls w (snd out)) = [] /\
  forall k, k <> start_token state r ->
            request_tokens (snd out) !! k = request_tokens w !! k.
Proof.
  cbv zeta. unfold_m.
  destruct (truthy_opt KEY && truthy_opt SECRET); proj.
  - rewrite <- !app_assoc, new_calls_app. split; [reflexivity |].
    split; [reflexivity |]. intros k Hk. apply lookup_insert_ne. congruence.
  - rewrite new_calls_nil. repeat split.
Qed.

(** X14. Two Start requests that go on with the same state token, a
    collision of two draws or a caller state used twice: the second leaves
    the pending-request store exactly as the first left it, so the two flows
    share one record. *)
Theorem start_same_token (self1 self2 : StartHandler) (state1 state2 : option string)
  (r1 r2 : Z) (w : world) :
  start_token state1 r1 = start_token state2 r2 ->
  let w1 := snd (Start self1 state1 r1 w) in
  request_tokens (snd (Start self2 state2 r2 w1)) = request_tokens w1.
Proof.
  intros Htok. cbv zeta. unfold_m.
  destruct (truthy_opt KEY && truthy_opt SECRET); proj; [| reflexivity].
  rewrite Htok. apply insert_insert_eq.
Qed.

(** X15. Start, then the callback the provider redirects to with the
    emitted blob, a code and no error, for any state the caller passes: the
    callback finds the pending request Start stored and submits its code
    through a client that has the client id and client secret of the client
    Start built the authorization URL with, and as redirect URI the host
    URL of the callback request followed by the [to_path] of Start; when
    the two requests arrive on one host it is the same client. *)
Theorem callback_uses_start_client (self : StartHandler) (cb : CallbackHandler)
  (provider : Provider) (w : world) (state : option string) (r : Z) :
  truthy_opt KEY = true -> truthy_opt SECRET = true ->
  let tok := start_token state r in
  let blob := [("state", tok); ("to_path", to_path self)] in
  let reddit_on (host : string) :=
    {| client_id := KEY; client_secret := SECRET;
       redirect_uri := host +:+ to_path self;
       user_agent := "oauth-dropin reddit identity checker" |} in
  decode (encode blob) = Returned blob ->
  request_get (request cb) "error" = EmptyString ->
  request_get (request cb) "state" = encode blob ->
  request_get (request cb) "code" <> EmptyString ->
  let out1 := Start self state r w in
  let out2 := Callback cb provider (snd out1) in
  new_calls w (snd out1)
    = [EvReddit (reddit_on (host_url (start_request self))); EvPutRequestToken tok;
       EvAuthUrl ["identity"] (encode blob) "permanent"] /\
  (exists rest,
     new_calls (snd out1) (snd out2)
       = ([EvGetRequestToken (Some tok); EvReddit (reddit_on (host_url (request cb)));
           EvAuthorize (request_get (request cb) "code")] ++ rest)%list) /\
  (host_url (request cb) = host_url (start_request self) ->
   reddit_on (host_url (request cb)) = reddit_on (host_url (start_request self))).
Proof.
  intros Hk Hs tok blob reddit_on Hrt He Hst Hc out1 out2.
  pose proof (start_run KEY SECRET encode url self state r w Hk Hs) as Hstart.
  fold tok blob out1 in Hstart.
  split; [rewrite Hstart; apply new_calls_app |].
  split; [| intros ->; reflexivity].
  assert (Hput : request_tokens (snd out1) !! tok
                 = Some {| models.token_secret := tok; models.state := tok |})
    by (rewrite Hstart; apply lookup_insert_eq).
  subst out2.
  rewrite (get_authenticated KEY SECRET decode dumps cb provider (snd out1) blob tok
             (to_path self) _ He ltac:(rewrite Hst; exact Hrt) eq_refl
             (start_token_nonempty state r) eq_refl Hc Hput).
  fold (reddit_on (host_url (request cb))).
  repeat (run_step; proj);
    rewrite <- ?app_assoc, new_calls_app; cbn [app]; eauto.
Qed.

End MoreProperties.

(** *** The start button *)

Section ButtonHtmlProperties.

Variable base_button_html :
  klass -> list string -> list (string * string) -> result string.

(** Below a class derived from [StartHandler], the first class that defines
    [button_html] is [StartHandler]. *)
Lemma find_definer (k : klass) :
  root k = RedditStartHandler ->
  List.find defines_button_html (mro k) = Some RedditStartHandler.
Proof.
  induction k as [| | parent IH]; cbn [root mro List.find defines_button_html];
    [discriminate | reflexivity | exact IH].
Qed.

(** X16. [button_html] called on [StartHandler] itself: the generic
    [button_html] is called with the same positional arguments and with the
    keywords of the caller preceded by the input style of this module; a
    caller who passes [input_style] gets a [TypeError] instead, the style
    cannot be chosen. *)
Theorem button_html_on_class (n : nat) (args : list string)
  (kwargs : list (string * string)) :
  button_html base_button_html (S (S n)) RedditStartHandler args kwargs =
    Some (match dict_get kwargs "input_style" with
          | Some _ =>
              Raised (TypeError "got multiple values for keyword argument 'input_style'")
          | None =>
              base_button_html RedditStartHandler args
                (("input_style", "background-color: #CEE3F8; padding: 10px") :: kwargs)
          end).
Proof.
  unfold button_html.
  cbn [mro List.find defines_button_html call_button_html tl].
  destruct (dict_get kwargs "input_style"); reflexivity.
Qed.

(** X17. [button_html] called on a class derived from [StartHandler] that
    does not define the method itself: [super(cls, cls)] resolves to
    [StartHandler] again, whose second run finds [input_style] among its
    keywords, so the call ends in a [TypeError] and the generic
    [button_html] is never reached, whatever the arguments. *)
Theorem button_html_on_subclass (n : nat) (parent : klass) (args : list string)
  (kwargs : list (string * string)) :
  root parent = RedditStartHandler ->
  button_html base_button_html (S (S n)) (Subclass parent) args kwargs =
    Some (Raised (TypeError "got multiple values for keyword argument 'input_style'")).
Proof.
  intros Hroot. unfold button_html.
  cbn [mro List.find defines_button_html].
  rewrite (find_definer parent Hroot).
  cbn [call_button_html mro tl]. rewrite (find_definer parent Hroot).
  destruct (dict_get kwargs "input_style"); [reflexivity |].
  cbn [dict_get]. reflexivity.
Qed.

End ButtonHtmlProperties.

(** ** More runs *)

Section MoreRuns.
Import sample more_samples.

(** A declined consent whose state parameter is not a blob. *)
Lemma callback_decode_failure_run :
  run_callback (callback [("error", "access_denied"); ("state", "garbage")])
    (grants "rt1" "alice" 10) (issued "123456") =
  (Raised (HTTPBadRequest "Invalid value for state parameter: garbage"),
   issued "123456").
Proof.
  exact (callback_decode_failure app_key app_secret util.decode_oauth_state
           util.json_dumps
           (callback [("error", "access_denied"); ("state", "garbage")])
           (grants "rt1" "alice" 10) (issued "123456") _ ltac:(by_eval)).
Defined.

(** The provider reports [server_error], once with a valid state and a
    code and once with a state parameter that is no blob. *)
Lemma callback_provider_error_run :
  fst (run_callback
         (callback [("error", "server_error"); ("state", blob "123456");
                    ("code", "abc123")])
         (grants "rt1" "alice" 10) (issued "123456"))
  = Raised (HTTPBadRequest "Error: server_error") /\
  fst (run_callback
         (callback [("error", "server_error"); ("state", "garbage")])
         (grants "rt1" "alice" 10) (issued "123456"))
  = Raised (HTTPBadRequest "Invalid value for state parameter: garbage").
Proof.
  unfold run_callback. split.
  - rewrite (callback_provider_error app_key app_secret util.decode_oauth_state
               util.json_dumps
               (callback [("error", "server_error"); ("state", blob "123456");
                          ("code", "abc123")])
               (grants "rt1" "alice" 10) (issued "123456")
               ltac:(intros H; apply str_in_occurs in H; vm_compute in H; discriminate H)).
    vm_compute. reflexivity.
  - rewrite (callback_provider_error app_key app_secret util.decode_oauth_state
               util.json_dumps
               (callback [("error", "server_error"); ("state", "garbage")])
               (grants "rt1" "alice" 10) (issued "123456")
               ltac:(intros H; apply str_in_occurs in H; vm_compute in H; discriminate H)).
    vm_compute. reflexivity.
Defined.

(** No error and no code: the guard holds and the empty error occurs in
    ['access_denied']. *)
Lemma callback_decline_iff_substring_run :
  fst (run_callback (callback [("state", blob "123456")])
         (grants "rt1" "alice" 10) (issued "123456")) = Returned tt <->
  occurs_in (request_get (request (callback [("state", blob "123456")])) "error")
    "access_denied".
Proof.
  exact (callback_decline_iff_substring app_key app_secret util.decode_oauth_state
           util.json_dumps (callback [("state", blob "123456")])
           (grants "rt1" "alice" 10) (issued "123456") st0
           ltac:(by_eval) ltac:(by_eval)).
Defined.

(** The exchange of a completed callback. *)
Lemma callback_provider_call_authenticated_run :
  exists st tok rec,
    util.decode_oauth_state (blob "123456") = Returned st /\
    dict_get st "state" = Some tok /\ tok <> EmptyString /\
    request_tokens (issued "123456") !! tok = Some rec.
Proof.
  destruct (callback_provider_call_authenticated app_key app_secret
              util.decode_oauth_state util.json_dumps
              (callback [("state", blob "123456"); ("code", "abc123")])
              (grants "rt1" "alice" 10) (issued "123456") (EvAuthorize "abc123")
              ltac:(apply list_elem_of_In; vm_compute; auto 10) eq_refl)
    as (_ & _ & H).
  exact H.
Defined.

(** Alice authorizes again, in a store that holds her credential. *)
Lemma callback_keeps_store_well_formed_run :
  store_well_formed
    (auths (snd (run_callback (callback [("state", blob "123456"); ("code", "abc123")])
                   (grants "rt1" "alice" 10) with_alice))).
Proof.
  apply (callback_keeps_store_well_formed app_key app_secret util.decode_oauth_state
           util.json_dumps).
  intros id a H. unfold with_alice in H. cbn [auths] in H.
  apply lookup_singleton_Some in H as [<- <-].
  split; [reflexivity | eexists; reflexivity].
Defined.

(** A grant without refresh token. *)
Lemma callback_no_refresh_token_run :
  let out :=
    run_callback (callback [("state", blob "123456"); ("code", "abc123")])
      grants_nothing (issued "123456") in
  fst out = Raised (BadValueError "Entity has uninitialized properties: refresh_token") /\
  auths (snd out) = auths (issued "123456").
Proof.
  destruct (callback_no_refresh_token app_key app_secret util.decode_oauth_state
              util.json_dumps
              (callback [("state", blob "123456"); ("code", "abc123")])
              grants_nothing (issued "123456") st0 "123456" "/reddit/oauth_callback"
              {| models.token_secret := "123456"; models.state := "123456" |}
              ltac:(by_eval) ltac:(by_eval) ltac:(by_eval) ltac:(by_eval)
              ltac:(by_eval) ltac:(by_eval) ltac:(by_eval) eq_refl)
    as (e & Hout & Hauths & He).
  split; [| exact Hauths].
  unfold run_callback. rewrite Hout. f_equal.
  exact (He (redditor "alice" 1) _ "alice" eq_refl ltac:(by_eval) ltac:(by_eval)).
Defined.

(** A blob without redirect path. *)
Lemma callback_missing_to_path_run :
  run_callback (callback [("state", blob_without_path); ("code", "abc123")])
    (grants "rt1" "alice" 10) (issued "123456") =
  (Raised (TypeError "can only concatenate str (not 'NoneType') to str"),
   {| request_tokens := request_tokens (issued "123456");
      auths := auths (issued "123456");
      calls := calls (issued "123456") ++ [EvGetRequestToken (Some "123456")] |}).
Proof.
  exact (callback_missing_to_path app_key app_secret util.decode_oauth_state
           util.json_dumps
           (callback [("state", blob_without_path); ("code", "abc123")])
           (grants "rt1" "alice" 10) (issued "123456") [("state", "123456")] "123456"
           {| models.token_secret := "123456"; models.state := "123456" |}
           ltac:(by_eval) ltac:(by_eval) ltac:(by_eval) ltac:(by_eval)
           ltac:(by_eval) ltac:(by_eval) ltac:(by_eval)).
Defined.

(** A user without avatar. *)
Lemma callback_missing_attribute_run :
  exists a,
    fst (run_callback (callback [("state", blob "123456"); ("code", "abc123")])
           without_icon (issued "123456")) = Raised (AttributeError a).
Proof.
  destruct (callback_missing_attribute app_key app_secret util.decode_oauth_state
              util.json_dumps
              (callback [("state", blob "123456"); ("code", "abc123")])
              without_icon (issued "123456") st0 "123456" "/reddit/oauth_callback"
              {| models.token_secret := "123456"; models.state := "123456" |}
              (Some "rt1") _
              ltac:(by_eval) ltac:(by_eval) ltac:(by_eval) ltac:(by_eval)
              ltac:(by_eval) ltac:(by_eval) ltac:(by_eval) eq_refl eq_refl
              ltac:(exists "icon_img"; split; [cbn; tauto | reflexivity]))
    as (a & _ & _ & Hrun).
  exists a. unfold run_callback. rewrite Hrun. reflexivity.
Defined.

(** The snapshot of the sample user, who has one attribute off the list. *)
Lemma user_attributes_snapshot_run :
  dict_keys alice_snapshot
    = ["name"; "comment_karma"; "created_utc"; "id"; "link_karma"; "icon_img"] /\
  dict_get alice_snapshot "is_gold" = None.
Proof.
  destruct (user_attributes_snapshot (redditor "alice" 10) alice_snapshot eq_refl)
    as (Hkeys & _ & Hoff).
  split; [exact Hkeys |].
  apply Hoff. cbn. intros H.
  repeat (destruct H as [H | H]; [discriminate H |]). destruct H.
Defined.

(** The credential of the sample completion. *)
Lemma completed_credential_accessors_run :
  auths (snd (run_callback (callback [("state", blob "123456"); ("code", "abc123")])
                (grants "rt1" "alice" 10) (issued "123456"))) !! "alice"
  = Some (credential "rt1" "alice" 10).
Proof.
  destruct (completed_credential_accessors app_key app_secret util.decode_oauth_state
              util.json_dumps
              (callback [("state", blob "123456"); ("code", "abc123")])
              (grants "rt1" "alice" 10) (issued "123456") (credential "rt1" "alice" 10)
              ltac:(by_eval))
    as (_ & H & _).
  exact H.
Defined.

(** A caller state used for two Start requests. *)
Lemma start_same_token_run :
  let w1 := snd (run_start app_key app_secret start (Some "my-state") 111111 empty_world) in
  request_tokens (snd (run_start app_key app_secret start (Some "my-state") 222222 w1))
  = request_tokens w1.
Proof.
  exact (start_same_token app_key app_secret util.encode_oauth_state praw.auth_url
           start start (Some "my-state") (Some "my-state") 111111 222222 empty_world
           eq_refl).
Defined.

(** Start with a caller state, then the callback on the same host. *)
Lemma callback_uses_start_client_run :
  let out1 := run_start app_key app_secret start (Some "my-state") 111111 empty_world in
  let out2 :=
    run_callback (callback [("state", blob "my-state"); ("code", "abc123")])
      (grants "rt1" "alice" 10) (snd out1) in
  let reddit :=
    {| client_id := app_key; client_secret := app_secret;
       redirect_uri := "https://example.com" +:+ "/reddit/oauth_callback";
       user_agent := "oauth-dropin reddit identity checker" |} in
  new_calls empty_world (snd out1)
  = [EvReddit reddit; EvPutRequestToken "my-state";
     EvAuthUrl ["identity"] (blob "my-state") "permanent"] /\
  exists rest,
    new_calls (snd out1) (snd out2)
    = ([EvGetRequestToken (Some "my-state"); EvReddit reddit; EvAuthorize "abc123"]
       ++ rest)%list.
Proof.
  destruct (callback_uses_start_client app_key app_secret util.encode_oauth_state
              util.decode_oauth_state util.json_dumps praw.auth_url
              start (callback [("state", blob "my-state"); ("code", "abc123")])
              (grants "rt1" "alice" 10) empty_world (Some "my-state") 111111
              eq_refl eq_refl ltac:(by_eval) ltac:(by_eval) ltac:(by_eval)
              ltac:(by_eval))
    as (H1 & H2 & _).
  split; [exact H1 | exact H2].
Defined.

(** The button of a class made from [StartHandler]. *)
Lemma button_html_on_subclass_run :
  button_html base_button 1000 (Subclass RedditStartHandler) ["/reddit/start"] []
  = Some (Raised (TypeError "got multiple values for keyword argument 'input_style'")).
Proof.
  exact (button_html_on_subclass base_button 998 RedditStartHandler
           ["/reddit/start"] [] eq_refl).
Defined.

End MoreRuns.

(** *** The stores and the trace *)

Section StoreProperties.

Variables KEY SECRET : option string.
Variable encode : list (string * string) -> string.
Variable decode : string -> result (list (string * string)).
Variable dumps : list (string * pyval) -> string.
Variable url : Reddit -> list string -> string -> string -> string.

Local Abbreviation Start := (redirect_url KEY SECRET encode url).
Local Abbreviation Callback := (get KEY SECRET decode dumps).

(** X18. Both handlers keep the pending-request store well formed: if every
    pending request is stored under its own state token, with that token as
    secret, before a Start or a callback, the same holds after it. *)
Theorem handlers_keep_pending_well_formed (start : StartHandler)
  (state : option string) (r : Z) (cb : CallbackHandler) (provider : Provider)
  (w : world) :
  pending_well_formed (request_tokens w) ->
  pending_well_formed (request_tokens (snd (Start start state r w))) /\
  pending_well_formed (request_tokens (snd (Callback cb provider w))).
Proof.
  intros Hwf. split; [| rewrite get_request_tokens; exact Hwf].
  unfold_m. destruct (truthy_opt KEY && truthy_opt SECRET); proj; [| exact Hwf].
  intros k rec Hl. destruct (decide (start_token state r = k)) as [<- | Hne].
  - rewrite lookup_insert_eq in Hl. injection Hl as <-. split; reflexivity.
  - rewrite lookup_insert_ne in Hl by exact Hne. apply Hwf, Hl.
Qed.

(** X19. The callback authenticates by the presence of a pending request
    and never reads what the record holds: two pending stores that have
    records under the same tokens, whatever their secrets and states, give
    the same outcome, the same credential store and the same calls. *)
Theorem callback_ignores_pending_content (self : CallbackHandler)
  (provider : Provider) (w : world) (pending : gmap string models.OAuthRequestToken) :
  (forall k, is_Some (request_tokens w !! k) <-> is_Some (pending !! k)) ->
  let w' := {| request_tokens := pending; auths := auths w; calls := calls w |} in
  fst (Callback self provider w') = fst (Callback self provider w) /\
  auths (snd (Callback self provider w')) = auths (snd (Callback self provider w)) /\
  calls (snd (Callback self provider w')) = calls (snd (Callback self provider w)).
Proof.
  intros Hsame. cbv zeta. unfold_m. proj.
  destruct (decode (request_get (request self) "state")) as [st | e]; proj;
    [| repeat split].
  destruct (truthy (request_get (request self) "error")
            || negb (truthy_opt (dict_get st "state"))
            || negb (truthy (request_get (request self) "code"))); proj.
  { destruct (str_in (request_get (request self) "error") "access_denied"); proj;
      repeat split. }
  destruct (dict_get st "state") as [tok |]; proj; [| repeat split].
  specialize (Hsame tok).
  destruct (request_tokens w !! tok) as [rec |], (pending !! tok) as [rec' |]; proj.
  - repeat (run_step; proj); repeat split.
  - destruct Hsame as [Hsame _]. destruct Hsame; [eauto | discriminate].
  - destruct Hsame as [_ Hsame]. destruct Hsame; [eauto | discriminate].
  - repeat split.
Qed.

(** X20. The calls of a callback come in one order, each at most once and
    none skipped: the lookup, the client, the exchange, the profile, the
    put, the finish, broken off where the request ends; the one exception
    is the decline path, whose only call is the finish without
    credential. *)
Theorem callback_call_order (self : CallbackHandler) (provider : Provider) (w : world) :
  let added := new_calls w (snd (Callback self provider w)) in
  (exists state, added = [EvFinish None (FToken state)]) \/
  map callback_order added = seq 0 (length added).
Proof.
  cbv zeta. unfold_m.
  repeat (run_step; proj);
    rewrite <- ?app_assoc, ?new_calls_app, ?new_calls_nil; cbn [app];
    first [right; reflexivity | left; eexists; reflexivity].
Qed.

End StoreProperties.

Section StoreRuns.
Import sample more_samples.

(** Start and a callback in a world where 123456 was issued. *)
Lemma handlers_keep_pending_well_formed_run :
  pending_well_formed
    (request_tokens (snd (run_start app_key app_secret start None 654321 (issued "123456")))) /\
  pending_well_formed
    (request_tokens
       (snd (run_callback (callback [("state", blob "123456"); ("code", "abc123")])
               (grants "rt1" "alice" 10) (issued "123456")))).
Proof.
  apply (handlers_keep_pending_well_formed app_key app_secret util.encode_oauth_state
           util.decode_oauth_state util.json_dumps praw.auth_url).
  intros k rec H. unfold issued in H. cbn [request_tokens] in H.
  apply lookup_singleton_Some in H as [<- <-]. split; reflexivity.
Defined.

(** A record under 123456 that Start did not write authenticates as well. *)
Lemma callback_ignores_pending_content_run :
  let w' :=
    {| request_tokens := forged_pending; auths := auths (issued "123456");
       calls := calls (issued "123456") |} in
  fst (run_callback (callback [("state", blob "123456"); ("code", "abc123")])
         (grants "rt1" "alice" 10) w')
  = fst (run_callback (callback [("state", blob "123456"); ("code", "abc123")])
           (grants "rt1" "alice" 10) (issued "123456")).
Proof.
  destruct (callback_ignores_pending_content app_key app_secret
              util.decode_oauth_state util.json_dumps
              (callback [("state", blob "123456"); ("code", "abc123")])
              (grants "rt1" "alice" 10) (issued "123456") forged_pending
              ltac:(intros k; unfold issued, forged_pending; cbn [request_tokens];
                    rewrite !lookup_singleton_is_Some; reflexivity))
    as (H & _).
  exact H.
Defined.

End StoreRuns.
